(** * nanofleet-tasks: the task store, the lifecycle handlers and the MCP
      session table

    A shallow embedding of [src/db.ts], [src/rest-api.ts] and
    [src/mcp-server.ts].

    - The four SQLite tables are lists of rows in insertion (rowid) order;
      [db.run] is a fallible state transformer that enforces the PRIMARY KEY
      constraints of the schema and keeps a journal of the write statements it
      executed.
    - [randomUUID()], [Date.now()], the agent-name lookup and the outcome of an
      outbound push are oracles (section variables): every theorem holds for
      all of them.
    - A handler is a computation in a state-and-exception monad over the
      process state; a thrown exception keeps the writes made so far, because
      the source opens no transaction.
    - A handler runs from its first statement to its last without another
      request running in between. *)

From Stdlib Require Import Ascii String.
From stdpp Require Import base strings list gmap sorting.

Local Open Scope string_scope.
Local Open Scope list_scope.
Local Open Scope stdpp_scope.

(** ** Row types ([src/db.ts], lines 56-91) *)

(** The [status] column is TEXT; it is kept as a string so that the four
    admissible values are a property of the handlers, not of the type. *)
Module TaskRow.
Record t := mk {
  id : string;
  title : string;
  description : option string;
  status : string;
  created_at : Z;
  updated_at : Z
}.
#[global] Instance eq_dec : EqDecision t.
Proof. solve_decision. Defined.
End TaskRow.

Module TaskAssigneeRow.
Record t := mk {
  task_id : string;
  agent_id : string
}.
#[global] Instance eq_dec : EqDecision t.
Proof. solve_decision. Defined.
End TaskAssigneeRow.

Module TaskCommentRow.
Record t := mk {
  id : string;
  task_id : string;
  author_id : string;
  author_type : string;
  author_name : string;
  content : string;
  created_at : Z
}.
#[global] Instance eq_dec : EqDecision t.
Proof. solve_decision. Defined.
End TaskCommentRow.

Module TaskResultRow.
Record t := mk {
  id : string;
  task_id : string;
  agent_id : string;
  content : string;
  file_path : option string;
  created_at : Z
}.
#[global] Instance eq_dec : EqDecision t.
Proof. solve_decision. Defined.
End TaskResultRow.

(** ** The database ([initSchema], lines 18-54) *)

Record Database := mkDatabase {
  tasks : list TaskRow.t;
  task_assignees : list TaskAssigneeRow.t;
  task_comments : list TaskCommentRow.t;
  task_results : list TaskResultRow.t
}.

Definition empty_db : Database := mkDatabase [] [] [] [].

Definition set_tasks (f : list TaskRow.t → list TaskRow.t) (d : Database) :=
  mkDatabase (f (tasks d)) (task_assignees d) (task_comments d) (task_results d).
Definition set_task_assignees
    (f : list TaskAssigneeRow.t → list TaskAssigneeRow.t) (d : Database) :=
  mkDatabase (tasks d) (f (task_assignees d)) (task_comments d) (task_results d).
Definition set_task_comments
    (f : list TaskCommentRow.t → list TaskCommentRow.t) (d : Database) :=
  mkDatabase (tasks d) (task_assignees d) (f (task_comments d)) (task_results d).
Definition set_task_results
    (f : list TaskResultRow.t → list TaskResultRow.t) (d : Database) :=
  mkDatabase (tasks d) (task_assignees d) (task_comments d) (f (task_results d)).

(** The write statements the source passes to [db.run]. *)
Inductive Stmt :=
| InsertTask (r : TaskRow.t)
| InsertAssignee (r : TaskAssigneeRow.t)
| InsertComment (r : TaskCommentRow.t)
| InsertResult (r : TaskResultRow.t)
| UpdateStatus (new_status : string) (now : Z) (id : string)
| DeleteAssignees (task_id : string)
| DeleteComments (task_id : string)
| DeleteResults (task_id : string)
| DeleteTask (id : string).

#[global] Instance Stmt_eq_dec : EqDecision Stmt.
Proof. solve_decision. Defined.

Definition with_status (s : string) (now : Z) (r : TaskRow.t) : TaskRow.t :=
  TaskRow.mk (TaskRow.id r) (TaskRow.title r) (TaskRow.description r)
             s (TaskRow.created_at r) now.

(** [UPDATE tasks SET status = ?, updated_at = ? WHERE id = ?] *)
Definition set_status (id st : string) (now : Z) (d : Database) : Database :=
  set_tasks (fmap (λ r, if decide (TaskRow.id r = id)
                        then with_status st now r else r)) d.

(** One statement: [None] is a constraint violation (the driver throws and the
    statement changes nothing), [Some (d, n)] the new database and
    [result.changes]. *)
Definition exec (s : Stmt) (d : Database) : option (Database * nat) :=
  match s with
  | InsertTask r =>
      if decide (TaskRow.id r ∈ TaskRow.id <$> tasks d) then None
      else Some (set_tasks (λ l, l ++ [r]) d, 1%nat)
  | InsertAssignee r =>
      if decide (r ∈ task_assignees d) then None
      else Some (set_task_assignees (λ l, l ++ [r]) d, 1%nat)
  | InsertComment r =>
      if decide (TaskCommentRow.id r ∈ TaskCommentRow.id <$> task_comments d)
      then None
      else Some (set_task_comments (λ l, l ++ [r]) d, 1%nat)
  | InsertResult r =>
      if decide (TaskResultRow.id r ∈ TaskResultRow.id <$> task_results d)
      then None
      else Some (set_task_results (λ l, l ++ [r]) d, 1%nat)
  | UpdateStatus st now i =>
      Some (set_status i st now d,
            length (filter (λ r, TaskRow.id r = i) (tasks d)))
  | DeleteAssignees i =>
      Some (set_task_assignees
              (filter (λ r, TaskAssigneeRow.task_id r ≠ i)) d,
            length (filter (λ r, TaskAssigneeRow.task_id r = i)
                           (task_assignees d)))
  | DeleteComments i =>
      Some (set_task_comments
              (filter (λ r, TaskCommentRow.task_id r ≠ i)) d,
            length (filter (λ r, TaskCommentRow.task_id r = i)
                           (task_comments d)))
  | DeleteResults i =>
      Some (set_task_results
              (filter (λ r, TaskResultRow.task_id r ≠ i)) d,
            length (filter (λ r, TaskResultRow.task_id r = i)
                           (task_results d)))
  | DeleteTask i =>
      Some (set_tasks (filter (λ r, TaskRow.id r ≠ i)) d,
            length (filter (λ r, TaskRow.id r = i) (tasks d)))
  end.

(** ** Integrity of the database *)

(** The values of [TaskStatus] ([src/db.ts], line 57). *)
Definition TaskStatus : list string := ["todo"; "in_progress"; "review"; "done"].

Definition task_ids (d : Database) : list string := TaskRow.id <$> tasks d.

(** The primary keys of the schema, the admissible statuses, and dependent
    rows that point to a stored task. *)
Record consistent (d : Database) : Prop := mkConsistent {
  status_ok : ∀ t, t ∈ tasks d → TaskRow.status t ∈ TaskStatus;
  tasks_pk : NoDup (task_ids d);
  assignees_pk : NoDup (task_assignees d);
  comments_pk : NoDup (TaskCommentRow.id <$> task_comments d);
  results_pk : NoDup (TaskResultRow.id <$> task_results d);
  assignees_fk :
    ∀ r, r ∈ task_assignees d → TaskAssigneeRow.task_id r ∈ task_ids d;
  comments_fk :
    ∀ r, r ∈ task_comments d → TaskCommentRow.task_id r ∈ task_ids d;
  results_fk :
    ∀ r, r ∈ task_results d → TaskResultRow.task_id r ∈ task_ids d
}.

Definition statuses_ok (d : Database) : Prop :=
  ∀ t, t ∈ tasks d → TaskRow.status t ∈ TaskStatus.

(** The status a statement writes, if it writes one. *)
Definition status_written (s : Stmt) : option string :=
  match s with
  | InsertTask r => Some (TaskRow.status r)
  | UpdateStatus st _ _ => Some st
  | _ => None
  end.

(** What the handlers make sure of before they run a statement. *)
Definition guarded (s : Stmt) (d : Database) : Prop :=
  match s with
  | InsertTask r => TaskRow.status r ∈ TaskStatus
  | InsertAssignee r => TaskAssigneeRow.task_id r ∈ task_ids d
  | InsertComment r => TaskCommentRow.task_id r ∈ task_ids d
  | InsertResult r => TaskResultRow.task_id r ∈ task_ids d
  | UpdateStatus st _ _ => st ∈ TaskStatus
  | DeleteAssignees _ | DeleteComments _ | DeleteResults _ => True
  | DeleteTask i =>
      (i ∉ TaskAssigneeRow.task_id <$> task_assignees d)
      ∧ (i ∉ TaskCommentRow.task_id <$> task_comments d)
      ∧ (i ∉ TaskResultRow.task_id <$> task_results d)
  end.

(** ** Process state *)

(** One outbound [fetch] of [pushToAgent]. *)
Record Push := mkPush { push_agent : string; push_content : string }.

#[global] Instance Push_eq_dec : EqDecision Push.
Proof. solve_decision. Defined.

Record World := mkWorld {
  db : Database;
  journal : list Stmt;        (* statements executed by db.run, oldest first *)
  uuid_draws : nat;           (* calls of randomUUID() so far *)
  clock_reads : nat;          (* calls of Date.now() so far *)
  outbox : list Push;         (* pushes attempted, oldest first *)
  console : list string       (* console.warn lines *)
}.

Definition init_world : World := mkWorld empty_db [] 0 0 [] [].

Definition tick_uuid (w : World) : World :=
  mkWorld (db w) (journal w) (S (uuid_draws w)) (clock_reads w)
          (outbox w) (console w).
Definition tick_clock (w : World) : World :=
  mkWorld (db w) (journal w) (uuid_draws w) (S (clock_reads w))
          (outbox w) (console w).
(** The statement [s] has been executed and left the database [d]. *)
Definition commit (s : Stmt) (d : Database) (w : World) : World :=
  mkWorld d (journal w ++ [s]) (uuid_draws w) (clock_reads w)
          (outbox w) (console w).

(** ** The handler monad *)

Inductive Outcome (A : Type) :=
| Returned (a : A)
| Threw (e : string).
Arguments Returned {A} a.
Arguments Threw {A} e.

Definition M (A : Type) : Type := World → Outcome A * World.

Definition ret {A} (a : A) : M A := λ w, (Returned a, w).

Definition bind {A B} (m : M A) (k : A → M B) : M B :=
  λ w, match m w with
       | (Returned a, w') => k a w'
       | (Threw e, w') => (Threw e, w')
       end.

Notation "x <- m ;; k" := (bind m (λ x, k))
  (at level 100, m at next level, right associativity).
Notation "m ;;; k" := (bind m (λ _, k))
  (at level 100, right associativity).

(** A SELECT: reads the database and changes nothing. *)
Definition query {A} (f : Database → A) : M A := λ w, (Returned (f (db w)), w).

(** [db.run]: executes one write statement, or throws on a constraint. *)
Definition db_run (s : Stmt) : M nat :=
  λ w, match exec s (db w) with
       | Some (d, n) => (Returned n, commit s d w)
       | None => (Threw "SQLITE_CONSTRAINT", w)
       end.

(** [for (const x of xs) body(x)] *)
Fixpoint for_of {A} (xs : list A) (body : A → M unit) : M unit :=
  match xs with
  | [] => ret tt
  | x :: xs' => body x ;;; for_of xs' body
  end.

(** JavaScript truthiness of an optional string: [undefined] and the empty
    string are falsy. *)
Definition truthy (s : option string) : bool :=
  match s with
  | Some s => negb (String.eqb s EmptyString)
  | None => false
  end.

(** [ORDER BY created_at ASC] and [DESC]. *)
Definition not_after {A} (key : A → Z) : relation A :=
  λ a b, (key a ≤ key b)%Z.

#[global] Instance not_after_dec {A} (key : A → Z) :
  RelDecision (not_after key).
Proof. intros a b. unfold not_after. apply _. Defined.

Definition order_asc {A} (key : A → Z) (l : list A) : list A :=
  merge_sort (not_after key) l.
Definition order_desc {A} (key : A → Z) (l : list A) : list A :=
  merge_sort (flip (not_after key)) l.

(** ["\n"], the double quote, and [lines.join('\n')]. *)
Definition nl : string := String "010"%char EmptyString.
Definition dq : string := String "034"%char EmptyString.
Definition join_lines (lines : list string) : string := String.concat nl lines.

(** The [content] built by [notifyAssignees] and by [notifyRejection]
    ([src/rest-api.ts], lines 49-58 and 69-77). *)
Definition assignment_message (taskId title : string)
    (description : option string) : string :=
  join_lines
    (["[New task assigned to you]"; "Title: " +:+ title]
     ++ (if truthy description
         then ["Description: " +:+ default EmptyString description]
         else [])
     ++ ["taskId: " +:+ taskId;
         EmptyString;
         "Use get_task(" +:+ dq +:+ taskId +:+ dq
           +:+ ") to see details, then update_task_status("
           +:+ dq +:+ taskId +:+ dq +:+ ", " +:+ dq +:+ "in_progress" +:+ dq
           +:+ ") when you start, and post_task_result("
           +:+ dq +:+ taskId +:+ dq +:+ ", yourResult) when done."]).

Definition rejection_message (taskId title feedback : string) : string :=
  join_lines
    ["[Task returned for revision]";
     "Title: " +:+ title;
     "taskId: " +:+ taskId;
     EmptyString;
     "Feedback: " +:+ feedback;
     EmptyString;
     "Please revise and call post_task_result(" +:+ dq +:+ taskId +:+ dq
       +:+ ", yourResult) again when done."].

(** [needle] occurs in [hay]. *)
Definition contains (needle hay : string) : Prop :=
  ∃ before after, hay = before +:+ needle +:+ after.

(** ** Requests and responses of the REST routes ([src/rest-api.ts]) *)

Record TaskListEntry := mkTaskListEntry {
  entry_task : TaskRow.t;
  entry_assignees : list string;
  entry_lastResult : option TaskResultRow.t
}.

Record TaskDetail := mkTaskDetail {
  detail_task : TaskRow.t;
  detail_assignees : list string;
  detail_comments : list TaskCommentRow.t;
  detail_results : list TaskResultRow.t
}.

(** The object handed to [c.json]. *)
Inductive Json :=
| JError (error : string)
| JTasks (tasks : list TaskListEntry)
| JTask (task : TaskRow.t)
| JDetail (task : option TaskDetail)
| JComment (comment : TaskCommentRow.t)
| JOk.

Record Response := json { body : Json; status_code : nat }.

(** Body of [POST /tasks]; an absent field is [None]. *)
Record CreateBody := mkCreateBody {
  body_title : option string;
  body_description : option string;
  body_assigneeIds : option (list string)
}.

(** Body of [PATCH /tasks/:id/status]. *)
Record StatusBody := mkStatusBody {
  body_action : option string;
  body_feedback : option string
}.

(** ** Tool inputs and results ([src/mcp-server.ts]) *)

(** [z.enum(['in_progress', 'review'])]: the status an agent may ask for. The
    tool callback only ever receives one of the two. *)
Inductive AgentStatus := in_progress | review.

Definition status_text (s : AgentStatus) : string :=
  match s with
  | in_progress => "in_progress"
  | review => "review"
  end.

(** The object a tool serialises into its text content. *)
Inductive ToolText :=
| TError (error : string)
| TTasks (tasks : list TaskRow.t)
| TDetail (task : TaskRow.t) (assignees : list string)
          (comments : list TaskCommentRow.t) (results : list TaskResultRow.t)
| TStatus (taskId status : string)
| TResult (resultId taskId status : string).

Record ToolResult := mkToolResult { content : ToolText; isError : bool }.

Definition tool_error (msg : string) : ToolResult := mkToolResult (TError msg) true.
Definition tool_ok (t : ToolText) : ToolResult := mkToolResult t false.

(** The two error texts of the agent-scoped tools. *)
Definition NotFound : ToolResult := tool_error "Task not found".
Definition Forbidden : ToolResult := tool_error "You are not assigned to this task".

Inductive ToolCall :=
| call_list_my_tasks
| call_get_task (taskId : string)
| call_update_task_status (taskId : string) (status : AgentStatus)
| call_post_task_result (taskId content : string) (filePath : option string).

(** ** The MCP endpoint ([startMcpServer], lines 196-240) *)

Inductive RpcMessage :=
| rpc_initialize
| rpc_tools_call (c : ToolCall)
| rpc_other.

Record Request := mkRequest {
  method : string;
  pathname : string;
  param_agent_id : option string;        (* url.searchParams.get('agent_id') *)
  header_mcp_session_id : option string; (* req.headers.get('mcp-session-id') *)
  message : RpcMessage
}.

(** What a transport answers. *)
Inductive TransportReply :=
| session_opened (sid : string)
| invalid_session
| tool_reply (r : ToolResult)
| tool_threw (e : string)
| rpc_reply.

Inductive McpResponse :=
| http_404
| http_204
| from_transport (r : TransportReply).

Record Transport := mkTransport { sessionId : option string }.

(** An entry of the [sessions] map. *)
Record Session := mkSession { transport : Transport; agentId : string }.

Record Server := mkServer {
  world : World;
  sessions : gmap string Session
}.

Definition init_server : Server := mkServer init_world ∅.

(** ** A small board, for examples *)

Module Demo.

(** Identifiers [id], [id|], [id||], ...: no two draws are equal. *)
Fixpoint tally (n : nat) : string :=
  match n with
  | O => EmptyString
  | S n => String "|"%char (tally n)
  end.

Definition uuid_at (n : nat) : string := "id" +:+ tally n.
Definition clock_at (n : nat) : Z := 1700000000000 + Z.of_nat n.
Definition agent_directory (agentId : string) : option string :=
  if String.eqb agentId "agent-a" then Some "Ada" else None.
Definition push_fails (agentId content : string) : bool :=
  String.eqb agentId "agent-b".
Definition all_delivered (agentId content : string) : bool := false.

Definition report : TaskRow.t :=
  TaskRow.mk "id" "Write the report" None "todo" 1700000000000 1700000000000.

(** The state after [POST /tasks] has created [report] for two agents; the
    push to [agent-b] failed. *)
Definition board : World :=
  mkWorld
    (mkDatabase [report]
                [TaskAssigneeRow.mk "id" "agent-a";
                 TaskAssigneeRow.mk "id" "agent-b"] [] [])
    [InsertTask report;
     InsertAssignee (TaskAssigneeRow.mk "id" "agent-a");
     InsertAssignee (TaskAssigneeRow.mk "id" "agent-b")]
    1 1
    [mkPush "agent-a" (assignment_message "id" "Write the report" None);
     mkPush "agent-b" (assignment_message "id" "Write the report" None)]
    ["[tasks] Failed to push to agent agent-b:"].

(** The same task once [agent-a] has handed in a result. *)
Definition in_review : World :=
  mkWorld
    (mkDatabase
       [with_status "review" 1700000000002 report]
       [TaskAssigneeRow.mk "id" "agent-a"; TaskAssigneeRow.mk "id" "agent-b"]
       [TaskCommentRow.mk "id||" "id" "agent-a" "agent" "Ada"
          "[System] Ada submitted a result. Task is now in review."
          1700000000003]
       [TaskResultRow.mk "id|" "id" "agent-a" "see the file" None
                         1700000000001])
    [] 3 4 [] [].

(** A task whose only assignee is the string ['unknown']. *)
Definition orphaned : World :=
  mkWorld
    (mkDatabase [report] [TaskAssigneeRow.mk "id" "unknown"] [] [])
    [] 1 1 [] [].

(** A history of three results of one task. *)
Definition R1 := TaskResultRow.mk "r1" "id" "agent-a" "draft" None 10.
Definition R2 := TaskResultRow.mk "r2" "id" "agent-a" "final" None 30.
Definition R3 := TaskResultRow.mk "r3" "id" "agent-b" "review" None 20.
Definition history : Database := mkDatabase [] [] [] [R1; R2; R3].

Definition open : Request := mkRequest "POST" "/mcp" None None rpc_initialize.
Definition close (token : string) : Request :=
  mkRequest "DELETE" "/mcp" None (Some token) rpc_other.
Definition call (token : string) (c : ToolCall) : Request :=
  mkRequest "POST" "/mcp" None (Some token) (rpc_tools_call c).

End Demo.

Section Embedding.

(** The n-th value handed out by [randomUUID()] and by [Date.now()]. *)
Variable uuid_at : nat → string.
Variable clock_at : nat → Z.
(** The answer of [GET /internal/agents/:id]: [None] when the call fails,
    is not ok, or carries no name. *)
Variable agent_directory : string → option string.
(** Whether the [fetch] of a push to an agent with a content throws. *)
Variable push_fails : string → string → bool.

Definition randomUUID : M string :=
  λ w, (Returned (uuid_at (uuid_draws w)), tick_uuid w).

Definition Date_now : M Z :=
  λ w, (Returned (clock_at (clock_reads w)), tick_clock w).

(** ** [src/db.ts] *)

Definition createTask (title : string) (description : option string)
    (assigneeIds : list string) : M TaskRow.t :=
  id <- randomUUID ;;
  now <- Date_now ;;
  db_run (InsertTask (TaskRow.mk id title description "todo" now now)) ;;;
  for_of assigneeIds (λ agentId,
    db_run (InsertAssignee (TaskAssigneeRow.mk id agentId)) ;;; ret tt) ;;;
  ret (TaskRow.mk id title description "todo" now now).

Definition listTasks (d : Database) : list TaskRow.t :=
  order_desc TaskRow.created_at (tasks d).

Definition getTask (id : string) (d : Database) : option TaskRow.t :=
  head (filter (λ r, TaskRow.id r = id) (tasks d)).

Definition updateTaskStatus (id status : string) : M bool :=
  now <- Date_now ;;
  changes <- db_run (UpdateStatus status now id) ;;
  ret (bool_decide (0 < changes)%nat).

Definition deleteTask (id : string) : M bool :=
  db_run (DeleteAssignees id) ;;;
  db_run (DeleteComments id) ;;;
  db_run (DeleteResults id) ;;;
  changes <- db_run (DeleteTask id) ;;
  ret (bool_decide (0 < changes)%nat).

Definition getTaskAssignees (taskId : string) (d : Database) : list string :=
  TaskAssigneeRow.agent_id <$>
    filter (λ r, TaskAssigneeRow.task_id r = taskId) (task_assignees d).

Definition getTasksForAgent (agentId : string) (d : Database)
    : list TaskRow.t :=
  order_desc TaskRow.created_at
    (t ← tasks d;
     ta ← filter (λ ta, TaskRow.id t = TaskAssigneeRow.task_id ta
                        ∧ TaskAssigneeRow.agent_id ta = agentId)
                 (task_assignees d);
     [t]).

Definition addComment (taskId authorId authorType authorName content : string)
    : M TaskCommentRow.t :=
  id <- randomUUID ;;
  now <- Date_now ;;
  db_run (InsertComment
            (TaskCommentRow.mk id taskId authorId authorType authorName
                               content now)) ;;;
  ret (TaskCommentRow.mk id taskId authorId authorType authorName content now).

Definition getTaskComments (taskId : string) (d : Database)
    : list TaskCommentRow.t :=
  order_asc TaskCommentRow.created_at
    (filter (λ r, TaskCommentRow.task_id r = taskId) (task_comments d)).

Definition addTaskResult (taskId agentId content : string)
    (filePath : option string) : M TaskResultRow.t :=
  id <- randomUUID ;;
  now <- Date_now ;;
  db_run (InsertResult
            (TaskResultRow.mk id taskId agentId content filePath now)) ;;;
  ret (TaskResultRow.mk id taskId agentId content filePath now).

Definition getTaskResults (taskId : string) (d : Database)
    : list TaskResultRow.t :=
  order_asc TaskResultRow.created_at
    (filter (λ r, TaskResultRow.task_id r = taskId) (task_results d)).

(** The correlated subquery of [getLatestResultPerAgent]: the ids of the
    first row, newest first, among the rows of [outer]'s task and agent. *)
Definition latest_id_of (outer : TaskResultRow.t) (d : Database)
    : list string :=
  TaskResultRow.id <$>
    take 1 (order_desc TaskResultRow.created_at
              (filter (λ tr2, TaskResultRow.task_id tr2
                                = TaskResultRow.task_id outer
                              ∧ TaskResultRow.agent_id tr2
                                = TaskResultRow.agent_id outer)
                      (task_results d))).

Definition getLatestResultPerAgent (taskId : string) (d : Database)
    : list TaskResultRow.t :=
  order_asc TaskResultRow.created_at
    (filter (λ r, TaskResultRow.task_id r = taskId
                  ∧ TaskResultRow.id r ∈ latest_id_of r d)
            (task_results d)).

(** ** [src/rest-api.ts]: push helpers (lines 30-80) *)

(** [pushToAgent]: one [fetch] is attempted; when it throws (now or once the
    detached promise settles), the error is caught and a warning is printed.
    The promise never rejects. *)
Definition pushToAgent (agentId content : string) : M unit :=
  λ w, (Returned tt,
        mkWorld (db w) (journal w) (uuid_draws w) (clock_reads w)
                (outbox w ++ [mkPush agentId content])
                (if push_fails agentId content
                 then console w
                      ++ ["[tasks] Failed to push to agent " +:+ agentId +:+ ":"]
                 else console w)).

(** [Promise.all(assigneeIds.map((id) => pushToAgent(id, content)))]: every
    [pushToAgent] runs up to its [fetch] when [map] calls it. *)
Definition push_all (assigneeIds : list string) (content : string) : M unit :=
  for_of assigneeIds (λ id, pushToAgent id content).

Definition notifyAssignees (taskId : string) (assigneeIds : list string)
    (title : string) (description : option string) : M unit :=
  push_all assigneeIds (assignment_message taskId title description).

Definition notifyRejection (taskId : string) (assigneeIds : list string)
    (title feedback : string) : M unit :=
  push_all assigneeIds (rejection_message taskId title feedback).

(** ** [src/rest-api.ts]: enriched views (lines 86-103) *)

Definition buildTaskList (d : Database) : list TaskListEntry :=
  (λ task, mkTaskListEntry task (getTaskAssignees (TaskRow.id task) d)
                           (last (getTaskResults (TaskRow.id task) d)))
    <$> listTasks d.

Definition buildTaskDetail (taskId : string) (d : Database)
    : option TaskDetail :=
  match getTask taskId d with
  | None => None
  | Some task =>
      Some (mkTaskDetail task (getTaskAssignees taskId d)
                         (getTaskComments taskId d) (getTaskResults taskId d))
  end.

(** ** [src/rest-api.ts]: the routes (lines 137-244) *)

Definition get_tasks : M Response :=
  tasks <- query buildTaskList ;;
  ret (json (JTasks tasks) 200).

(** [POST /tasks]; [None] is a body that is not JSON. *)
Definition post_tasks (body : option CreateBody) : M Response :=
  match body with
  | None => ret (json (JError "Invalid JSON") 400)
  | Some body =>
      match body_title body, body_assigneeIds body with
      | Some title, Some assigneeIds =>
          if negb (truthy (Some title)) || bool_decide (length assigneeIds = 0%nat)
          then ret (json (JError "title and at least one assigneeId are required") 400)
          else
            task <- createTask title (body_description body) assigneeIds ;;
            notifyAssignees (TaskRow.id task) assigneeIds (TaskRow.title task)
                            (TaskRow.description task) ;;;
            ret (json (JTask task) 201)
      | _, _ =>
          ret (json (JError "title and at least one assigneeId are required") 400)
      end
  end.

Definition get_tasks_id (id : string) : M Response :=
  detail <- query (buildTaskDetail id) ;;
  match detail with
  | None => ret (json (JError "Task not found") 404)
  | Some _ => ret (json (JDetail detail) 200)
  end.

(** [PATCH /tasks/:id/status] *)
Definition patch_tasks_id_status (taskId : string) (body : option StatusBody)
    : M Response :=
  task <- query (getTask taskId) ;;
  match task with
  | None => ret (json (JError "Task not found") 404)
  | Some task =>
      match body with
      | None => ret (json (JError "Invalid JSON") 400)
      | Some body =>
          if bool_decide (body_action body = Some "approve") then
            updateTaskStatus taskId "done" ;;;
            addComment taskId "human" "human" "Human"
                       "[System] Task approved and marked as done." ;;;
            updated <- query (buildTaskDetail taskId) ;;
            ret (json (JDetail updated) 200)
          else if bool_decide (body_action body = Some "reject") then
            if negb (truthy (body_feedback body))
            then ret (json (JError "feedback is required when rejecting") 400)
            else
              let feedback := default EmptyString (body_feedback body) in
              updateTaskStatus taskId "in_progress" ;;;
              addComment taskId "human" "human" "Human"
                         ("[Feedback] " +:+ feedback) ;;;
              assignees <- query (getTaskAssignees taskId) ;;
              notifyRejection taskId assignees (TaskRow.title task) feedback ;;;
              updated <- query (buildTaskDetail taskId) ;;
              ret (json (JDetail updated) 200)
          else
            ret (json (JError ("action must be " +:+ dq +:+ "approve" +:+ dq
                               +:+ " or " +:+ dq +:+ "reject" +:+ dq)) 400)
      end
  end.

(** [POST /tasks/:id/comments] *)
Definition post_tasks_id_comments (taskId : string)
    (body : option (option string)) : M Response :=
  task <- query (getTask taskId) ;;
  match task with
  | None => ret (json (JError "Task not found") 404)
  | Some _ =>
      match body with
      | None => ret (json (JError "Invalid JSON") 400)
      | Some content =>
          if negb (truthy content)
          then ret (json (JError "content is required") 400)
          else
            comment <- addComment taskId "human" "human" "Human"
                                  (default EmptyString content) ;;
            ret (json (JComment comment) 201)
      end
  end.

(** [DELETE /tasks/:id] *)
Definition delete_tasks_id (id : string) : M Response :=
  deleted <- deleteTask id ;;
  if negb deleted
  then ret (json (JError "Task not found") 404)
  else ret (json JOk 200).

(** ** [src/mcp-server.ts]: caller identity and tools (lines 16-190) *)

(** [agentIdStorage.getStore() ?? 'unknown']; the argument is the store of
    the running request, [None] outside of [agentIdStorage.run]. *)
Definition getCallerAgentId (store : option string) : string :=
  default "unknown" store.

Definition getAgentName (agentId : string) : string :=
  default agentId (agent_directory agentId).

Definition list_my_tasks (store : option string) : M ToolResult :=
  let agentId := getCallerAgentId store in
  tasks <- query (getTasksForAgent agentId) ;;
  ret (tool_ok (TTasks tasks)).

Definition get_task (taskId : string) : M ToolResult :=
  task <- query (getTask taskId) ;;
  match task with
  | None => ret NotFound
  | Some task =>
      assignees <- query (getTaskAssignees taskId) ;;
      comments <- query (getTaskComments taskId) ;;
      results <- query (getTaskResults taskId) ;;
      ret (tool_ok (TDetail task assignees comments results))
  end.

Definition update_task_status (store : option string) (taskId : string)
    (status : AgentStatus) : M ToolResult :=
  let agentId := getCallerAgentId store in
  task <- query (getTask taskId) ;;
  match task with
  | None => ret NotFound
  | Some _ =>
      assignees <- query (getTaskAssignees taskId) ;;
      if negb (bool_decide (agentId ∈ assignees)) then ret Forbidden
      else
        updateTaskStatus taskId (status_text status) ;;;
        let agentName := getAgentName agentId in
        let statusLabel :=
          match status with
          | in_progress => "started working on this task"
          | review => "submitted this task for review"
          end in
        addComment taskId agentId "agent" agentName
                   ("[System] " +:+ agentName +:+ " " +:+ statusLabel +:+ ".") ;;;
        ret (tool_ok (TStatus taskId (status_text status)))
  end.

Definition post_task_result (store : option string)
    (taskId content : string) (filePath : option string) : M ToolResult :=
  let agentId := getCallerAgentId store in
  task <- query (getTask taskId) ;;
  match task with
  | None => ret NotFound
  | Some _ =>
      assignees <- query (getTaskAssignees taskId) ;;
      if negb (bool_decide (agentId ∈ assignees)) then ret Forbidden
      else
        result <- addTaskResult taskId agentId content filePath ;;
        updateTaskStatus taskId "review" ;;;
        let agentName := getAgentName agentId in
        addComment taskId agentId "agent" agentName
                   ("[System] " +:+ agentName +:+ " submitted a result"
                    +:+ (if truthy filePath
                         then " (file: " +:+ default EmptyString filePath +:+ ")"
                         else EmptyString)
                    +:+ ". Task is now in review.") ;;;
        ret (tool_ok (TResult (TaskResultRow.id result) taskId "review"))
  end.

Definition call_tool (store : option string) (c : ToolCall) : M ToolResult :=
  match c with
  | call_list_my_tasks => list_my_tasks store
  | call_get_task taskId => get_task taskId
  | call_update_task_status taskId status =>
      update_task_status store taskId status
  | call_post_task_result taskId content filePath =>
      post_task_result store taskId content filePath
  end.

(** ** [src/mcp-server.ts]: the HTTP entry point (lines 196-237) *)

(** Modelled from the spec: [handleRequest] of the streamable-HTTP transport,
    which belongs to the MCP SDK and is missing from the sources. Following
    section 4.3 of the specification: a transport that has no session yet
    opens one for a request that carries no session token (it draws the
    token from its [sessionIdGenerator] and reports it to
    [onsessioninitialized]) and rejects a request that carries a token as an
    invalid session; a transport with a session serves the requests that
    carry its own token, running a tool call under the identity [store] the
    caller of [handleRequest] installed with [agentIdStorage.run], and
    rejects every other token. *)
Definition handleRequest (t : Transport) (store : string)
    (onsessioninitialized : string → Server → Server)
    (req : Request) (sv : Server) : TransportReply * Server :=
  match sessionId t with
  | None =>
      match header_mcp_session_id req with
      | Some _ => (invalid_session, sv)
      | None =>
          let sid := uuid_at (uuid_draws (world sv)) in
          (session_opened sid,
           onsessioninitialized
             sid (mkServer (tick_uuid (world sv)) (sessions sv)))
      end
  | Some sid =>
      if bool_decide (header_mcp_session_id req = Some sid) then
        match message req with
        | rpc_tools_call c =>
            match call_tool (Some store) c (world sv) with
            | (Returned r, w) => (tool_reply r, mkServer w (sessions sv))
            | (Threw e, w) => (tool_threw e, mkServer w (sessions sv))
            end
        | _ => (rpc_reply, sv)
        end
      else (invalid_session, sv)
  end.

(** [url.searchParams.get('agent_id') ?? 'unknown'] *)
Definition agentIdFromUrl (req : Request) : string :=
  default "unknown" (param_agent_id req).

(** The [onsessioninitialized] callback of a transport created for a request
    whose URL gave [agentIdFromUrl]:
    [sessions.set(sid, { transport, agentId: agentIdFromUrl })]. *)
Definition register_session (agentIdFromUrl sid : string) (sv : Server)
    : Server :=
  mkServer (world sv)
           (<[sid := mkSession (mkTransport (Some sid)) agentIdFromUrl]>
              (sessions sv)).

(** The [fetch] callback handed to [Bun.serve]. The [onclose] callback of a
    transport is not part of it: no request path of this file closes one. *)
Definition fetch (req : Request) (sv : Server) : McpResponse * Server :=
  if negb (String.eqb (pathname req) "/mcp") then (http_404, sv)
  else
    let agentIdFromUrl := agentIdFromUrl req in
    let sessionId := header_mcp_session_id req in
    let sid := default EmptyString sessionId in
    if String.eqb (method req) "DELETE" && truthy sessionId then
      (http_204, mkServer (world sv) (delete sid (sessions sv)))
    else
      match (if truthy sessionId then sessions sv !! sid else None) with
      | Some session =>
          let (r, sv') :=
            handleRequest (transport session) (agentId session)
                          (register_session (agentId session)) req sv in
          (from_transport r, sv')
      | None =>
          let (r, sv') :=
            handleRequest (mkTransport None) agentIdFromUrl
                          (register_session agentIdFromUrl) req sv in
          (from_transport r, sv')
      end.

(** The server after a sequence of requests. *)
Definition serve (reqs : list Request) (sv : Server) : Server :=
  foldl (λ sv req, snd (fetch req sv)) sv reqs.

(** ** Public operations and the states they reach *)

Inductive Op :=
| op_get_tasks
| op_post_tasks (body : option CreateBody)
| op_get_tasks_id (id : string)
| op_patch_tasks_id_status (id : string) (body : option StatusBody)
| op_post_tasks_id_comments (id : string) (body : option (option string))
| op_delete_tasks_id (id : string)
| op_tool (store : option string) (c : ToolCall).

(** The process state after an operation, whether it answered or threw. *)
Definition run_op (o : Op) (w : World) : World :=
  match o with
  | op_get_tasks => snd (get_tasks w)
  | op_post_tasks body => snd (post_tasks body w)
  | op_get_tasks_id id => snd (get_tasks_id id w)
  | op_patch_tasks_id_status id body => snd (patch_tasks_id_status id body w)
  | op_post_tasks_id_comments id body => snd (post_tasks_id_comments id body w)
  | op_delete_tasks_id id => snd (delete_tasks_id id w)
  | op_tool store c => snd (call_tool store c w)
  end.

Inductive reachable : World → Prop :=
| reachable_init : reachable init_world
| reachable_step w o : reachable w → reachable (run_op o w).

(** An assertion on the process state that a computation keeps, whether it
    returns or throws. *)
Definition keeps {A} (J : World → Prop) (m : M A) : Prop :=
  ∀ w, J w → J (snd (m w)).

(** ** The states the operations leave, and other notions of the proofs *)

(** Consistent, and the task [taskId] is stored: what holds once a handler
    has found the task. *)
Definition with_task (taskId : string) (d : Database) : Prop :=
  consistent d ∧ taskId ∈ task_ids d.
Definition holds_task (taskId : string) (w : World) : Prop :=
  with_task taskId (db w).

(** [deleteTask] always returns; this is the database it leaves. *)
Definition without_task (id : string) (d : Database) : Database :=
  mkDatabase
    (filter (λ r, TaskRow.id r ≠ id) (tasks d))
    (filter (λ r, TaskAssigneeRow.task_id r ≠ id) (task_assignees d))
    (filter (λ r, TaskCommentRow.task_id r ≠ id) (task_comments d))
    (filter (λ r, TaskResultRow.task_id r ≠ id) (task_results d)).

Definition new_result (taskId agentId content : string)
    (filePath : option string) (w : World) : TaskResultRow.t :=
  TaskResultRow.mk (uuid_at (uuid_draws w)) taskId agentId content filePath
                   (clock_at (clock_reads w)).

Definition new_comment (taskId authorId authorType authorName content : string)
    (w : World) : TaskCommentRow.t :=
  TaskCommentRow.mk (uuid_at (uuid_draws w)) taskId authorId authorType
                    authorName content (clock_at (clock_reads w)).

(** The process state after a successful [addTaskResult], [addComment] and
    [updateTaskStatus]. *)
Definition did_addTaskResult (taskId agentId content : string)
    (filePath : option string) (w : World) : World :=
  let r := new_result taskId agentId content filePath w in
  commit (InsertResult r) (set_task_results (λ l, l ++ [r]) (db w))
         (tick_clock (tick_uuid w)).

Definition did_addComment
    (taskId authorId authorType authorName content : string) (w : World)
    : World :=
  let c := new_comment taskId authorId authorType authorName content w in
  commit (InsertComment c) (set_task_comments (λ l, l ++ [c]) (db w))
         (tick_clock (tick_uuid w)).

Definition did_updateTaskStatus (id st : string) (w : World) : World :=
  commit (UpdateStatus st (clock_at (clock_reads w)) id)
         (set_status id st (clock_at (clock_reads w)) (db w))
         (tick_clock w).

Definition result_comment (agentName : string) (filePath : option string)
    : string :=
  "[System] " +:+ agentName +:+ " submitted a result"
  +:+ (if truthy filePath
       then " (file: " +:+ default EmptyString filePath +:+ ")"
       else EmptyString)
  +:+ ". Task is now in review.".

Definition status_comment (agentName : string) (status : AgentStatus)
    : string :=
  "[System] " +:+ agentName +:+ " "
  +:+ match status with
      | in_progress => "started working on this task"
      | review => "submitted this task for review"
      end
  +:+ ".".

(** The state an accepted [post_task_result] leaves. *)
Definition did_post_task_result (agentId taskId content : string)
    (filePath : option string) (w : World) : World :=
  did_addComment taskId agentId "agent" (getAgentName agentId)
                 (result_comment (getAgentName agentId) filePath)
    (did_updateTaskStatus taskId "review"
       (did_addTaskResult taskId agentId content filePath w)).

(** The state an accepted [update_task_status] leaves. *)
Definition did_update_task_status (agentId taskId : string)
    (status : AgentStatus) (w : World) : World :=
  did_addComment taskId agentId "agent" (getAgentName agentId)
                 (status_comment (getAgentName agentId) status)
    (did_updateTaskStatus taskId (status_text status) w).

(** The token is not in the table, and every identifier still to be drawn
    differs from it. *)
Definition retired (token : string) (n : nat) (sv : Server) : Prop :=
  sessions sv !! token = None ∧ (n ≤ uuid_draws (world sv))%nat.

(** The rows of a task and an agent, and the one the subquery picks. *)
Definition peers (taskId agentId : string) (d : Database)
    : list TaskResultRow.t :=
  filter (λ tr2, TaskResultRow.task_id tr2 = taskId
                 ∧ TaskResultRow.agent_id tr2 = agentId)
         (task_results d).

Definition latest (taskId agentId : string) (d : Database)
    : option TaskResultRow.t :=
  head (order_desc TaskResultRow.created_at (peers taskId agentId d)).

(** The state after [pushToAgent] has run for every assignee. *)
Definition did_push_all (assigneeIds : list string) (content : string)
    (w : World) : World :=
  mkWorld (db w) (journal w) (uuid_draws w) (clock_reads w)
          (outbox w ++ ((λ id, mkPush id content) <$> assigneeIds))
          (console w
           ++ ((λ id, "[tasks] Failed to push to agent " +:+ id +:+ ":")
                 <$> filter (λ id, push_fails id content = true) assigneeIds)).

(** The state an accepted rejection leaves. *)
Definition did_reject (taskId title feedback : string) (w : World) : World :=
  let w2 := did_addComment taskId "human" "human" "Human"
                           ("[Feedback] " +:+ feedback)
              (did_updateTaskStatus taskId "in_progress" w) in
  did_push_all (getTaskAssignees taskId (db w2))
               (rejection_message taskId title feedback) w2.

(** The state an approval leaves. *)
Definition did_approve (taskId : string) (w : World) : World :=
  did_addComment taskId "human" "human" "Human"
                 "[System] Task approved and marked as done."
    (did_updateTaskStatus taskId "done" w).





(** What no operation changes of a task: its id, title, description and
    creation time. *)
Definition same_task (t t' : TaskRow.t) : Prop :=
  TaskRow.id t' = TaskRow.id t
  ∧ TaskRow.title t' = TaskRow.title t
  ∧ TaskRow.description t' = TaskRow.description t
  ∧ TaskRow.created_at t' = TaskRow.created_at t.

(** The task [taskId] is stored, is still the task [t] up to its status and
    [updated_at], and has the assignees [assignees]. *)
Definition settled (taskId : string) (t : TaskRow.t) (assignees : list string)
    (d : Database) : Prop :=
  (∃ t', getTask taskId d = Some t' ∧ same_task t t')
  ∧ getTaskAssignees taskId d = assignees.

(** The statements that could remove the task [taskId] or change its
    assignees. *)
Definition touches (taskId : string) (s : Stmt) : Prop :=
  match s with
  | DeleteTask j | DeleteAssignees j => j = taskId
  | InsertAssignee r => TaskAssigneeRow.task_id r = taskId
  | _ => False
  end.

(** The statements that remove comments or results. *)
Definition removes_history (s : Stmt) : Prop :=
  match s with
  | DeleteComments _ | DeleteResults _ => True
  | _ => False
  end.

(** The stored comments and results begin with [comments] and [results]. *)
Definition extends (comments : list TaskCommentRow.t)
    (results : list TaskResultRow.t) (d : Database) : Prop :=
  comments `prefix_of` task_comments d ∧ results `prefix_of` task_results d.



(** * Facts about the store *)

Lemma keeps_ret {A} (J : World → Prop) (a : A) : keeps J (ret a).
Proof. by intros w. Qed.

Lemma keeps_query {A} (J : World → Prop) (f : Database → A) :
  keeps J (query f).
Proof. by intros w. Qed.

Lemma keeps_bind {A B} (J : World → Prop) (m : M A) (k : A → M B) :
  keeps J m → (∀ a, keeps J (k a)) → keeps J (bind m k).
Proof.
  intros Hm Hk w HJ. unfold bind. specialize (Hm w HJ).
  destruct (m w) as [[a|e] w']; simpl in *; [by apply Hk|done].
Qed.

Lemma keeps_bind_query {A B} (J : World → Prop) (f : Database → A)
    (k : A → M B) :
  (∀ w, J w → J (snd (k (f (db w)) w))) → keeps J (bind (query f) k).
Proof. intros Hk w HJ. by apply Hk. Qed.

Lemma keeps_weaken {A} (J J' : World → Prop) (m : M A) :
  keeps J' m → (∀ w, J' w → J w) → ∀ w, J' w → J (snd (m w)).
Proof. intros Hm HJ w Hw. by apply HJ, Hm. Qed.

Lemma keeps_for_of {A} (J : World → Prop) (xs : list A) (body : A → M unit) :
  (∀ x, keeps J (body x)) → keeps J (for_of xs body).
Proof.
  intros Hbody. induction xs as [|x xs IH]; simpl.
  - apply keeps_ret.
  - apply keeps_bind; [apply Hbody|by intros _].
Qed.

(** Assertions that only look at the database. *)
Lemma keeps_randomUUID (D : Database → Prop) :
  keeps (λ w, D (db w)) randomUUID.
Proof. by intros w. Qed.

Lemma keeps_Date_now (D : Database → Prop) : keeps (λ w, D (db w)) Date_now.
Proof. by intros w. Qed.

Lemma keeps_pushToAgent (D : Database → Prop) agentId content :
  keeps (λ w, D (db w)) (pushToAgent agentId content).
Proof. by intros w. Qed.

Lemma keeps_db_run (D : Database → Prop) (s : Stmt) :
  (∀ d d' n, D d → exec s d = Some (d', n) → D d') →
  keeps (λ w, D (db w)) (db_run s).
Proof.
  intros Hexec w HD. unfold db_run.
  destruct (exec s (db w)) as [[d n]|] eqn:E; simpl; [|done].
  by eapply Hexec.
Qed.

(** ** Statements and integrity *)

Lemma consistent_empty : consistent empty_db.
Proof.
  split; simpl; try apply NoDup_nil_2; intros r Hr; by apply not_elem_of_nil in Hr.
Qed.

Lemma NoDup_fmap_filter {A B} (f : A → B) (P : A → Prop)
    `{∀ x, Decision (P x)} (l : list A) :
  NoDup (f <$> l) → NoDup (f <$> filter P l).
Proof.
  intros Hl. eapply sublist_NoDup; [exact Hl|].
  apply fmap_sublist, sublist_filter.
Qed.

Lemma NoDup_snoc {A} (l : list A) (x : A) :
  NoDup l → x ∉ l → NoDup (l ++ [x]).
Proof.
  intros Hl Hx. apply NoDup_app. split; [done|]. split.
  - intros y Hy ->%list_elem_of_singleton. done.
  - apply NoDup_singleton.
Qed.

Lemma task_ids_set_status id st now d :
  task_ids (set_status id st now d) = task_ids d.
Proof.
  unfold task_ids, set_status, set_tasks. simpl.
  rewrite <- list_fmap_compose. apply list_fmap_ext.
  intros i r _. simpl. by destruct (decide _).
Qed.

(** Every statement but [DELETE FROM tasks] keeps the stored tasks' ids. *)
Lemma exec_task_ids s d d' n i :
  exec s d = Some (d', n) → (∀ j, s ≠ DeleteTask j) →
  i ∈ task_ids d → i ∈ task_ids d'.
Proof.
  intros Hexec Hs Hi. destruct s; simpl in Hexec;
    repeat case_decide; simplify_eq; try done.
  - unfold task_ids. simpl. rewrite fmap_app. apply elem_of_app. by left.
  - by rewrite task_ids_set_status.
  - by destruct (Hs id).
Qed.

Lemma exec_consistent s d d' n :
  consistent d → guarded s d → exec s d = Some (d', n) → consistent d'.
Proof.
  intros [Hst Htpk Hapk Hcpk Hrpk Hafk Hcfk Hrfk] Hg Hexec.
  destruct s; simpl in Hexec, Hg; repeat case_decide; simplify_eq.
  - (* INSERT INTO tasks *)
    split; simpl; try done; unfold task_ids in *; simpl.
    + intros t [Ht| ->%list_elem_of_singleton]%elem_of_app; auto.
    + rewrite fmap_app. by apply NoDup_snoc.
    + intros r' Hr'. rewrite fmap_app. apply elem_of_app. left. auto.
    + intros r' Hr'. rewrite fmap_app. apply elem_of_app. left. auto.
    + intros r' Hr'. rewrite fmap_app. apply elem_of_app. left. auto.
  - (* INSERT INTO task_assignees *)
    split; simpl; try done.
    + by apply NoDup_snoc.
    + intros r' [Hr'| ->%list_elem_of_singleton]%elem_of_app; auto.
  - (* INSERT INTO task_comments *)
    split; simpl; try done.
    + rewrite fmap_app. by apply NoDup_snoc.
    + intros r' [Hr'| ->%list_elem_of_singleton]%elem_of_app; auto.
  - (* INSERT INTO task_results *)
    split; simpl; try done.
    + rewrite fmap_app. by apply NoDup_snoc.
    + intros r' [Hr'| ->%list_elem_of_singleton]%elem_of_app; auto.
  - (* UPDATE tasks *)
    split; try rewrite task_ids_set_status; try done.
    intros t [r [-> Hr]]%list_elem_of_fmap.
    destruct (decide _); simpl; auto.
  - (* DELETE FROM task_assignees *)
    split; simpl; try done.
    + by apply NoDup_filter.
    + intros r' [_ Hr']%list_elem_of_filter. auto.
  - (* DELETE FROM task_comments *)
    split; simpl; try done.
    + by apply NoDup_fmap_filter.
    + intros r' [_ Hr']%list_elem_of_filter. auto.
  - (* DELETE FROM task_results *)
    split; simpl; try done.
    + by apply NoDup_fmap_filter.
    + intros r' [_ Hr']%list_elem_of_filter. auto.
  - (* DELETE FROM tasks *)
    destruct Hg as (Ha & Hc & Hr).
    assert (∀ j, j ≠ id → j ∈ task_ids d →
                 j ∈ TaskRow.id <$> filter (λ r, TaskRow.id r ≠ id) (tasks d))
      as Hkeep.
    { intros j Hj [t [-> Ht]]%list_elem_of_fmap.
      apply list_elem_of_fmap_2. by apply list_elem_of_filter. }
    split; unfold task_ids; simpl; try done.
    + intros t [_ Ht]%list_elem_of_filter. auto.
    + by apply NoDup_fmap_filter.
    + intros r' Hr'. apply Hkeep; [|auto].
      intros E. apply Ha. rewrite <- E. by apply list_elem_of_fmap_2.
    + intros r' Hr'. apply Hkeep; [|auto].
      intros E. apply Hc. rewrite <- E. by apply list_elem_of_fmap_2.
    + intros r' Hr'. apply Hkeep; [|auto].
      intros E. apply Hr. rewrite <- E. by apply list_elem_of_fmap_2.
Qed.


Lemma getTask_Some id d task :
  getTask id d = Some task → task ∈ tasks d ∧ TaskRow.id task = id.
Proof.
  unfold getTask. intros H. apply head_Some_elem_of in H.
  by apply list_elem_of_filter in H as [? ?].
Qed.

Lemma getTask_None id d :
  getTask id d = None ↔ id ∉ TaskRow.id <$> tasks d.
Proof.
  unfold getTask. rewrite head_None. split.
  - intros H [r [-> Hr]]%list_elem_of_fmap.
    assert (r ∈ filter (λ r0, TaskRow.id r0 = TaskRow.id r) (tasks d)) as Hin
      by (by apply list_elem_of_filter).
    rewrite H in Hin. by apply not_elem_of_nil in Hin.
  - intros H. destruct (filter _ _) as [|r l] eqn:E; [done|].
    assert (r ∈ filter (λ r0, TaskRow.id r0 = id) (tasks d)) as Hin
      by (rewrite E; left).
    apply list_elem_of_filter in Hin as [<- Hin].
    exfalso. apply H. by apply list_elem_of_fmap_2.
Qed.

(** After [UPDATE tasks SET status = ?, updated_at = ? WHERE id = ?] the
    task read back carries the new status. *)
Lemma getTask_update st now id d :
  getTask id (set_status id st now d) = with_status st now <$> getTask id d.
Proof.
  unfold getTask, set_status, set_tasks. simpl.
  induction (tasks d) as [|r l IH]; [done|].
  rewrite fmap_cons, !filter_cons.
  destruct (decide (TaskRow.id r = id)) as [Heq|Hne]; simpl.
  - rewrite decide_True by done. done.
  - rewrite decide_False by done. done.
Qed.

Lemma prefix_append (s t : string) : String.prefix s (s +:+ t) = true.
Proof.
  induction s as [|a s IH]; simpl; [by destruct t|].
  by destruct (ascii_dec a a).
Qed.

Lemma truthy_Some (s : string) : truthy (Some s) = true ↔ s ≠ EmptyString.
Proof.
  simpl. rewrite negb_true_iff. apply String.eqb_neq.
Qed.

(** ** The functions of [db.ts] keep the database consistent *)

Lemma getTask_task_ids id d : is_Some (getTask id d) ↔ id ∈ task_ids d.
Proof.
  rewrite <- not_eq_None_Some, getTask_None. unfold task_ids.
  split; [apply dec_stable|auto].
Qed.

Lemma keeps_holds_task_db_run taskId s :
  (∀ d, taskId ∈ task_ids d → guarded s d) → (∀ j, s ≠ DeleteTask j) →
  keeps (holds_task taskId) (db_run s).
Proof.
  intros Hg Hs. apply (keeps_db_run (with_task taskId)).
  intros d d' n [Hc Hin] Hexec. split.
  - eapply exec_consistent; eauto.
  - eapply exec_task_ids; eauto.
Qed.

Lemma keeps_updateTaskStatus taskId id st :
  st ∈ TaskStatus → keeps (holds_task taskId) (updateTaskStatus id st).
Proof.
  intros Hst. unfold updateTaskStatus.
  apply keeps_bind; [apply (keeps_Date_now (with_task taskId))|intros now].
  apply keeps_bind; [|intros; apply keeps_ret].
  by apply keeps_holds_task_db_run.
Qed.

Lemma keeps_addComment taskId authorId authorType authorName content :
  keeps (holds_task taskId)
        (addComment taskId authorId authorType authorName content).
Proof.
  unfold addComment.
  apply keeps_bind; [apply (keeps_randomUUID (with_task taskId))|intros id].
  apply keeps_bind; [apply (keeps_Date_now (with_task taskId))|intros now].
  apply keeps_bind; [|intros; apply keeps_ret].
  by apply keeps_holds_task_db_run.
Qed.

Lemma keeps_addTaskResult taskId agentId content filePath :
  keeps (holds_task taskId) (addTaskResult taskId agentId content filePath).
Proof.
  unfold addTaskResult.
  apply keeps_bind; [apply (keeps_randomUUID (with_task taskId))|intros id].
  apply keeps_bind; [apply (keeps_Date_now (with_task taskId))|intros now].
  apply keeps_bind; [|intros; apply keeps_ret].
  by apply keeps_holds_task_db_run.
Qed.

Lemma keeps_push_all (D : Database → Prop) assigneeIds content :
  keeps (λ w, D (db w)) (push_all assigneeIds content).
Proof. apply keeps_for_of. intros. apply keeps_pushToAgent. Qed.

Lemma keeps_createTask title description assigneeIds :
  keeps (λ w, consistent (db w)) (createTask title description assigneeIds).
Proof.
  unfold createTask.
  apply keeps_bind; [apply (keeps_randomUUID consistent)|intros id].
  apply keeps_bind; [apply (keeps_Date_now consistent)|intros now].
  intros w Hc. unfold bind at 1, db_run at 1.
  destruct (exec _ (db w)) as [[d n]|] eqn:E; [|done].
  assert (holds_task id
            (commit (InsertTask (TaskRow.mk id title description "todo" now now))
                    d w)) as HJ.
  { split; simpl.
    - eapply exec_consistent; [exact Hc| |exact E].
      simpl. unfold TaskStatus. set_solver.
    - simpl in E. case_decide; simplify_eq. unfold task_ids. simpl.
      rewrite fmap_app. apply elem_of_app. right. simpl. left. }
  revert HJ.
  apply (keeps_weaken (λ w, consistent (db w)) (holds_task id));
    [|by intros ? [? ?]].
  apply keeps_bind; [|intros; apply keeps_ret].
  apply keeps_for_of. intros agentId.
  apply keeps_bind; [|intros; apply keeps_ret].
  by apply keeps_holds_task_db_run.
Qed.

Lemma deleteTask_run id w :
  deleteTask id w
  = (Returned (bool_decide
                 (0 < length (filter (λ r, TaskRow.id r = id)
                                     (tasks (db w))))%nat),
     mkWorld (without_task id (db w))
             (journal w ++ [DeleteAssignees id; DeleteComments id;
                            DeleteResults id; DeleteTask id])
             (uuid_draws w) (clock_reads w) (outbox w) (console w)).
Proof.
  unfold deleteTask, bind, db_run, commit, without_task, ret. simpl.
  by rewrite <- !app_assoc.
Qed.

Lemma consistent_without_task id d :
  consistent d → consistent (without_task id d).
Proof.
  intros [Hst Htpk Hapk Hcpk Hrpk Hafk Hcfk Hrfk].
  assert (∀ j, j ≠ id → j ∈ task_ids d →
               j ∈ TaskRow.id <$> filter (λ r, TaskRow.id r ≠ id) (tasks d))
    as Hkeep.
  { intros j Hj [t [-> Ht]]%list_elem_of_fmap.
    apply list_elem_of_fmap_2. by apply list_elem_of_filter. }
  split; unfold task_ids; simpl.
  - intros t [_ Ht]%list_elem_of_filter. auto.
  - by apply NoDup_fmap_filter.
  - by apply NoDup_filter.
  - by apply NoDup_fmap_filter.
  - by apply NoDup_fmap_filter.
  - intros r [Hne Hr]%list_elem_of_filter. auto.
  - intros r [Hne Hr]%list_elem_of_filter. auto.
  - intros r [Hne Hr]%list_elem_of_filter. auto.
Qed.

Lemma keeps_deleteTask id : keeps (λ w, consistent (db w)) (deleteTask id).
Proof.
  intros w Hc. rewrite deleteTask_run. simpl. by apply consistent_without_task.
Qed.

(** ** Running the primitives *)

Lemma bind_returned {A B} (m : M A) (k : A → M B) w a w' :
  m w = (Returned a, w') → bind m k w = k a w'.
Proof. unfold bind. by intros ->. Qed.

Lemma bind_threw {A B} (m : M A) (k : A → M B) w e w' :
  m w = (Threw e, w') → bind m k w = (Threw e, w').
Proof. unfold bind. by intros ->. Qed.

Lemma bind_query {A B} (f : Database → A) (k : A → M B) w :
  bind (query f) k w = k (f (db w)) w.
Proof. reflexivity. Qed.

Lemma bind_ret {A B} (a : A) (k : A → M B) w : bind (ret a) k w = k a w.
Proof. reflexivity. Qed.

Lemma addTaskResult_fresh taskId agentId content filePath w :
  uuid_at (uuid_draws w) ∉ TaskResultRow.id <$> task_results (db w) →
  addTaskResult taskId agentId content filePath w
  = (Returned (new_result taskId agentId content filePath w),
     did_addTaskResult taskId agentId content filePath w).
Proof.
  intros Hfresh. unfold addTaskResult, bind, randomUUID, Date_now, db_run.
  simpl. by rewrite decide_False.
Qed.

Lemma addTaskResult_clash taskId agentId content filePath w :
  uuid_at (uuid_draws w) ∈ TaskResultRow.id <$> task_results (db w) →
  addTaskResult taskId agentId content filePath w
  = (Threw "SQLITE_CONSTRAINT", tick_clock (tick_uuid w)).
Proof.
  intros Hfresh. unfold addTaskResult, bind, randomUUID, Date_now, db_run.
  simpl. by rewrite decide_True.
Qed.

Lemma addComment_fresh taskId authorId authorType authorName content w :
  uuid_at (uuid_draws w) ∉ TaskCommentRow.id <$> task_comments (db w) →
  addComment taskId authorId authorType authorName content w
  = (Returned (new_comment taskId authorId authorType authorName content w),
     did_addComment taskId authorId authorType authorName content w).
Proof.
  intros Hfresh. unfold addComment, bind, randomUUID, Date_now, db_run.
  simpl. by rewrite decide_False.
Qed.

Lemma addComment_clash taskId authorId authorType authorName content w :
  uuid_at (uuid_draws w) ∈ TaskCommentRow.id <$> task_comments (db w) →
  addComment taskId authorId authorType authorName content w
  = (Threw "SQLITE_CONSTRAINT", tick_clock (tick_uuid w)).
Proof.
  intros Hfresh. unfold addComment, bind, randomUUID, Date_now, db_run.
  simpl. by rewrite decide_True.
Qed.

Lemma updateTaskStatus_run id st w :
  updateTaskStatus id st w
  = (Returned (bool_decide
                 (0 < length (filter (λ r, TaskRow.id r = id)
                                     (tasks (db w))))%nat),
     did_updateTaskStatus id st w).
Proof. reflexivity. Qed.

Lemma getTask_did_updateTaskStatus id st w :
  getTask id (db (did_updateTaskStatus id st w))
  = with_status st (clock_at (clock_reads w)) <$> getTask id (db w).
Proof. apply getTask_update. Qed.

Lemma getTask_did_addComment id taskId authorId authorType authorName content w :
  getTask id (db (did_addComment taskId authorId authorType authorName content w))
  = getTask id (db w).
Proof. reflexivity. Qed.

Lemma getTask_did_addTaskResult id taskId agentId content filePath w :
  getTask id (db (did_addTaskResult taskId agentId content filePath w))
  = getTask id (db w).
Proof. reflexivity. Qed.

(** ** The agent-scoped tools *)

Lemma post_task_result_run w store taskId content filePath :
  is_Some (getTask taskId (db w)) →
  getCallerAgentId store ∈ getTaskAssignees taskId (db w) →
  uuid_at (uuid_draws w) ∉ TaskResultRow.id <$> task_results (db w) →
  uuid_at (S (uuid_draws w)) ∉ TaskCommentRow.id <$> task_comments (db w) →
  post_task_result store taskId content filePath w
  = (Returned (tool_ok (TResult (uuid_at (uuid_draws w)) taskId "review")),
     did_post_task_result (getCallerAgentId store) taskId content filePath w).
Proof.
  intros [task Htask] Hin Hfresh1 Hfresh2.
  unfold post_task_result.
  rewrite bind_query, Htask, bind_query.
  rewrite bool_decide_eq_true_2 by done. cbn [negb].
  erewrite bind_returned by (by apply addTaskResult_fresh).
  erewrite bind_returned by apply updateTaskStatus_run.
  erewrite bind_returned by (by apply addComment_fresh).
  reflexivity.
Qed.

Lemma update_task_status_run w store taskId status :
  is_Some (getTask taskId (db w)) →
  getCallerAgentId store ∈ getTaskAssignees taskId (db w) →
  uuid_at (uuid_draws w) ∉ TaskCommentRow.id <$> task_comments (db w) →
  update_task_status store taskId status w
  = (Returned (tool_ok (TStatus taskId (status_text status))),
     did_update_task_status (getCallerAgentId store) taskId status w).
Proof.
  intros [task Htask] Hin Hfresh.
  unfold update_task_status.
  rewrite bind_query, Htask, bind_query.
  rewrite bool_decide_eq_true_2 by done. cbn [negb].
  erewrite bind_returned by apply updateTaskStatus_run.
  erewrite bind_returned by (by apply addComment_fresh).
  by destruct status.
Qed.

Lemma post_task_result_refused w store taskId content filePath :
  is_Some (getTask taskId (db w)) →
  getCallerAgentId store ∉ getTaskAssignees taskId (db w) →
  post_task_result store taskId content filePath w = (Returned Forbidden, w).
Proof.
  intros [task Htask] Hin. unfold post_task_result.
  rewrite bind_query, Htask, bind_query.
  by rewrite bool_decide_eq_false_2.
Qed.

Lemma update_task_status_refused w store taskId status :
  is_Some (getTask taskId (db w)) →
  getCallerAgentId store ∉ getTaskAssignees taskId (db w) →
  update_task_status store taskId status w = (Returned Forbidden, w).
Proof.
  intros [task Htask] Hin. unfold update_task_status.
  rewrite bind_query, Htask, bind_query.
  by rewrite bool_decide_eq_false_2.
Qed.

(** C1: called by an assignee of an existing task, [post_task_result]
    answers with the id of the new result; whatever the status was, the task
    is then in [review]; the results of the store are the old ones followed
    by exactly one new row (for that task and agent, with the content and
    file path given) and the comments are the old ones followed by exactly
    one new comment of that task whose text starts with [[System]]. The two
    identifiers drawn from [randomUUID()] are assumed not to be in use. *)
Theorem post_task_result_by_assignee
    (w : World) (store : option string) (taskId content : string)
    (filePath : option string) :
  is_Some (getTask taskId (db w)) →
  getCallerAgentId store ∈ getTaskAssignees taskId (db w) →
  uuid_at (uuid_draws w) ∉ TaskResultRow.id <$> task_results (db w) →
  uuid_at (S (uuid_draws w)) ∉ TaskCommentRow.id <$> task_comments (db w) →
  ∃ (result : TaskResultRow.t) (comment : TaskCommentRow.t) (w' : World),
    post_task_result store taskId content filePath w
      = (Returned (tool_ok (TResult (TaskResultRow.id result) taskId "review")),
         w')
    ∧ TaskRow.status <$> getTask taskId (db w') = Some "review"
    ∧ task_results (db w') = task_results (db w) ++ [result]
    ∧ TaskResultRow.task_id result = taskId
    ∧ TaskResultRow.agent_id result = getCallerAgentId store
    ∧ TaskResultRow.content result = content
    ∧ TaskResultRow.file_path result = filePath
    ∧ task_comments (db w') = task_comments (db w) ++ [comment]
    ∧ TaskCommentRow.task_id comment = taskId
    ∧ TaskCommentRow.author_id comment = getCallerAgentId store
    ∧ String.prefix "[System] " (TaskCommentRow.content comment) = true
    ∧ task_assignees (db w') = task_assignees (db w).
Proof.
  intros Htask Hin Hfresh1 Hfresh2.
  set (agentId := getCallerAgentId store).
  exists (new_result taskId agentId content filePath w),
    (new_comment taskId agentId "agent" (getAgentName agentId)
       (result_comment (getAgentName agentId) filePath)
       (did_updateTaskStatus taskId "review"
          (did_addTaskResult taskId agentId content filePath w))),
    (did_post_task_result agentId taskId content filePath w).
  split.
  { by apply post_task_result_run. }
  split.
  { unfold did_post_task_result.
    rewrite getTask_did_addComment, getTask_did_updateTaskStatus,
      getTask_did_addTaskResult.
    by destruct Htask as [task ->]. }
  repeat split; try reflexivity.
  apply prefix_append.
Qed.

(** C4: an agent that is not among the assignees of an existing task is
    answered [Forbidden] by [update_task_status] and by [post_task_result],
    and the process state (every table, the journal of executed statements)
    is the one before the call. *)
Theorem non_assignee_is_forbidden
    (w : World) (store : option string) (taskId : string) :
  is_Some (getTask taskId (db w)) →
  getCallerAgentId store ∉ getTaskAssignees taskId (db w) →
  (∀ status,
     update_task_status store taskId status w = (Returned Forbidden, w))
  ∧ (∀ content filePath,
       post_task_result store taskId content filePath w
       = (Returned Forbidden, w)).
Proof.
  intros Htask Hout. split; intros.
  - by apply update_task_status_refused.
  - by apply post_task_result_refused.
Qed.

(** ** The review decision and task creation *)

(** C3: for an existing task, a [reject] decision whose feedback is absent
    or empty is answered 400 and the process state is the one before the
    request: no status written, no comment, no push attempted. *)
Theorem reject_without_feedback
    (w : World) (taskId : string) (body : StatusBody) :
  is_Some (getTask taskId (db w)) →
  body_action body = Some "reject" →
  truthy (body_feedback body) = false →
  patch_tasks_id_status taskId (Some body) w
  = (Returned (json (JError "feedback is required when rejecting") 400), w).
Proof.
  intros [task Htask] Haction Hfeedback.
  unfold patch_tasks_id_status.
  rewrite bind_query, Htask, Haction, Hfeedback.
  reflexivity.
Qed.

Lemma createTask_twice_same_assignee w title description a :
  let id := uuid_at (uuid_draws w) in
  let now := clock_at (clock_reads w) in
  let task := TaskRow.mk id title description "todo" now now in
  let row := TaskAssigneeRow.mk id a in
  id ∉ TaskRow.id <$> tasks (db w) →
  row ∉ task_assignees (db w) →
  createTask title description [a; a] w
  = (Threw "SQLITE_CONSTRAINT",
     commit (InsertAssignee row)
            (set_task_assignees (λ l, l ++ [row])
                                (set_tasks (λ l, l ++ [task]) (db w)))
            (commit (InsertTask task) (set_tasks (λ l, l ++ [task]) (db w))
                    (tick_clock (tick_uuid w)))).
Proof.
  intros id now task row Hid Hrow.
  unfold createTask, bind, randomUUID, Date_now. cbn [for_of].
  unfold bind, db_run. cbn [db tick_uuid tick_clock uuid_draws clock_reads].
  cbn [exec]. fold id now. fold task. fold row.
  rewrite decide_False by done.
  cbn [db commit set_tasks task_assignees exec].
  rewrite decide_False by done.
  cbn [db commit set_task_assignees task_assignees ret].
  rewrite decide_True by (apply elem_of_app; right; left).
  reflexivity.
Qed.

(** C9: task creation is not atomic. When the list of assignees names the
    same agent twice, [POST /tasks] ends in an exception (the second insert
    into [task_assignees] violates the primary key), yet the task row and
    the first assignment stay in the store; no push is attempted. *)
Theorem post_tasks_partial_on_duplicate_assignee
    (w : World) (title a : string) (description : option string) :
  let id := uuid_at (uuid_draws w) in
  let now := clock_at (clock_reads w) in
  let task := TaskRow.mk id title description "todo" now now in
  title ≠ EmptyString →
  id ∉ TaskRow.id <$> tasks (db w) →
  TaskAssigneeRow.mk id a ∉ task_assignees (db w) →
  ∃ w',
    post_tasks (Some (mkCreateBody (Some title) description (Some [a; a]))) w
    = (Threw "SQLITE_CONSTRAINT", w')
    ∧ tasks (db w') = tasks (db w) ++ [task]
    ∧ task_assignees (db w')
      = task_assignees (db w) ++ [TaskAssigneeRow.mk id a]
    ∧ getTask id (db w') = Some task
    ∧ outbox w' = outbox w.
Proof.
  intros id now task Htitle Hid Hrow.
  eexists. split.
  { unfold post_tasks. cbn [body_title body_assigneeIds body_description].
    apply truthy_Some in Htitle. rewrite Htitle. cbn [negb orb length].
    rewrite bool_decide_eq_false_2 by done.
    erewrite bind_threw by (by apply createTask_twice_same_assignee).
    reflexivity. }
  cbn [db commit set_task_assignees set_tasks tasks task_assignees outbox
       tick_clock tick_uuid].
  repeat split; try reflexivity.
  unfold getTask. cbn [tasks set_task_assignees set_tasks]. rewrite filter_app.
  replace (filter (λ r, TaskRow.id r = id) (tasks (db w))) with (@nil TaskRow.t).
  - rewrite filter_cons, decide_True by done. reflexivity.
  - symmetry. apply (proj2 (getTask_None id (db w))) in Hid.
    unfold getTask in Hid. by apply head_None in Hid.
Qed.

(** ** The MCP endpoint *)

Lemma fetch_opens_session req sv :
  pathname req = "/mcp" →
  header_mcp_session_id req = None →
  fetch req sv
  = (from_transport (session_opened (uuid_at (uuid_draws (world sv)))),
     register_session (agentIdFromUrl req)
                      (uuid_at (uuid_draws (world sv)))
                      (mkServer (tick_uuid (world sv)) (sessions sv))).
Proof.
  intros Hpath Hheader. unfold fetch, handleRequest.
  rewrite Hpath, Hheader. cbn [String.eqb Ascii.eqb Bool.eqb negb truthy].
  rewrite andb_false_r. reflexivity.
Qed.

Lemma fetch_known_session req sv sid identity :
  pathname req = "/mcp" →
  method req ≠ "DELETE" →
  header_mcp_session_id req = Some sid →
  sid ≠ EmptyString →
  sessions sv !! sid = Some (mkSession (mkTransport (Some sid)) identity) →
  fetch req sv
  = match message req with
    | rpc_tools_call c =>
        match call_tool (Some identity) c (world sv) with
        | (Returned r, w) =>
            (from_transport (tool_reply r), mkServer w (sessions sv))
        | (Threw e, w) =>
            (from_transport (tool_threw e), mkServer w (sessions sv))
        end
    | _ => (from_transport rpc_reply, sv)
    end.
Proof.
  intros Hpath Hmethod Hheader Hsid Hsession. unfold fetch.
  rewrite Hpath, Hheader. cbn [String.eqb Ascii.eqb Bool.eqb negb].
  apply String.eqb_neq in Hmethod. rewrite Hmethod. cbn [andb].
  apply truthy_Some in Hsid. rewrite Hsid. cbn [from_option id].
  rewrite Hsession. unfold handleRequest.
  cbn [transport sessionId agentId]. rewrite Hheader.
  rewrite bool_decide_eq_true_2 by done.
  destruct (message req) as [|c|]; try reflexivity.
  by destruct (call_tool _ c (world sv)) as [[r|e] w'].
Qed.

(** C10: a request without a bound identity is served as the agent called
    [unknown]. [getCallerAgentId] answers ['unknown'] for an empty store and
    [agentIdFromUrl] is ['unknown'] without an [agent_id] parameter; a
    session opened that way is registered for ['unknown'] and a tool call on
    that session runs as ['unknown']; no tool
    tells the empty store from the identity ['unknown']; so on a task that
    lists ['unknown'] among its assignees [update_task_status] and
    [post_task_result] of such a caller are accepted and write the store. *)
Theorem unidentified_caller_is_unknown
    (w : World) (taskId content : string) (filePath : option string)
    (status : AgentStatus) (opening call : Request) (c : ToolCall)
    (sv : Server) :
  let sid := uuid_at (uuid_draws (world sv)) in
  is_Some (getTask taskId (db w)) →
  "unknown" ∈ getTaskAssignees taskId (db w) →
  uuid_at (uuid_draws w) ∉ TaskCommentRow.id <$> task_comments (db w) →
  uuid_at (uuid_draws w) ∉ TaskResultRow.id <$> task_results (db w) →
  uuid_at (S (uuid_draws w)) ∉ TaskCommentRow.id <$> task_comments (db w) →
  pathname opening = "/mcp" →
  header_mcp_session_id opening = None →
  param_agent_id opening = None →
  pathname call = "/mcp" →
  method call ≠ "DELETE" →
  header_mcp_session_id call = Some sid →
  sid ≠ EmptyString →
  message call = rpc_tools_call c →
  getCallerAgentId None = "unknown"
  ∧ agentIdFromUrl opening = "unknown"
  ∧ (∀ c0 w0, call_tool None c0 w0 = call_tool (Some "unknown") c0 w0)
  ∧ fst (fetch opening sv) = from_transport (session_opened sid)
  ∧ agentId <$> sessions (snd (fetch opening sv)) !! sid = Some "unknown"
  ∧ world (snd (fetch call (snd (fetch opening sv))))
    = snd (call_tool None c (world (snd (fetch opening sv))))
  ∧ update_task_status None taskId status w
    = (Returned (tool_ok (TStatus taskId (status_text status))),
       did_update_task_status "unknown" taskId status w)
  ∧ TaskRow.status
      <$> getTask taskId (db (did_update_task_status "unknown" taskId status w))
    = Some (status_text status)
  ∧ post_task_result None taskId content filePath w
    = (Returned (tool_ok (TResult (uuid_at (uuid_draws w)) taskId "review")),
       did_post_task_result "unknown" taskId content filePath w)
  ∧ TaskRow.status
      <$> getTask taskId
            (db (did_post_task_result "unknown" taskId content filePath w))
    = Some "review"
  ∧ task_results (db (did_post_task_result "unknown" taskId content filePath w))
    = task_results (db w)
      ++ [new_result taskId "unknown" content filePath w].
Proof.
  intros sid Htask Hin Hc Hr Hc' Hpath Hheader Hparam Hpath' Hmethod Hheader'
    Hsid Hmessage.
  split; [reflexivity|]. split; [unfold agentIdFromUrl; by rewrite Hparam|].
  split; [by intros [| | |]|].
  rewrite (fetch_opens_session opening sv) by done.
  unfold agentIdFromUrl. rewrite Hparam. cbn [fst snd from_option id].
  split; [reflexivity|].
  split.
  { unfold register_session. cbn [sessions]. fold sid.
    by rewrite lookup_insert_eq. }
  split.
  { erewrite (fetch_known_session call _ sid "unknown"); try done.
    - rewrite Hmessage.
      change (call_tool None c) with (call_tool (Some "unknown") c).
      by destruct (call_tool _ c _) as [[r|e] w'].
    - unfold register_session. cbn [sessions]. fold sid.
      by rewrite lookup_insert_eq. }
  split; [by apply update_task_status_run|].
  split.
  { unfold did_update_task_status.
    rewrite getTask_did_addComment, getTask_did_updateTaskStatus.
    by destruct Htask as [task ->]. }
  split; [by apply post_task_result_run|].
  split; [|reflexivity].
  unfold did_post_task_result.
  rewrite getTask_did_addComment, getTask_did_updateTaskStatus,
    getTask_did_addTaskResult.
  by destruct Htask as [task ->].
Qed.

(** ** Every public operation keeps the database consistent *)

Ltac keeps_holds_task taskId :=
  repeat first
    [ apply keeps_ret
    | apply keeps_query
    | apply keeps_addComment
    | apply keeps_addTaskResult
    | apply keeps_updateTaskStatus; unfold TaskStatus; set_solver
    | apply (keeps_push_all (with_task taskId))
    | match goal with
      | |- keeps _ (if ?b then _ else _) => destruct b
      | |- keeps _ (bind _ _) => apply keeps_bind; [|intros ?]
      end ].

(** Once the task has been found, the rest of a handler runs with it. *)
Lemma found_task {A} (taskId : string) (rest : M A) (w : World) task :
  consistent (db w) → getTask taskId (db w) = Some task →
  keeps (holds_task taskId) rest → consistent (db (snd (rest w))).
Proof.
  intros Hc Htask Hrest.
  apply (keeps_weaken (λ w, consistent (db w)) (holds_task taskId) rest);
    [done|by intros ? [? ?]|].
  split; [done|]. apply getTask_task_ids. eauto.
Qed.

Lemma keeps_post_tasks body :
  keeps (λ w, consistent (db w)) (post_tasks body).
Proof.
  unfold post_tasks. destruct body as [[[title|] description [assigneeIds|]]|];
    simpl; try apply keeps_ret.
  destruct (_ || _); [apply keeps_ret|].
  apply keeps_bind; [apply keeps_createTask|intros task].
  apply keeps_bind; [apply (keeps_push_all consistent)|intros _].
  apply keeps_ret.
Qed.

Lemma keeps_patch_tasks_id_status taskId body :
  keeps (λ w, consistent (db w)) (patch_tasks_id_status taskId body).
Proof.
  unfold patch_tasks_id_status. apply keeps_bind_query. intros w Hc.
  destruct (getTask taskId (db w)) as [task|] eqn:Htask; [|done].
  apply (found_task taskId _ w task Hc Htask).
  destruct body as [body|]; [|apply keeps_ret].
  unfold notifyRejection. keeps_holds_task taskId.
Qed.

Lemma keeps_post_tasks_id_comments taskId body :
  keeps (λ w, consistent (db w)) (post_tasks_id_comments taskId body).
Proof.
  unfold post_tasks_id_comments. apply keeps_bind_query. intros w Hc.
  destruct (getTask taskId (db w)) as [task|] eqn:Htask; [|done].
  apply (found_task taskId _ w task Hc Htask).
  destruct body as [content|]; [|apply keeps_ret].
  keeps_holds_task taskId.
Qed.

Lemma keeps_delete_tasks_id id :
  keeps (λ w, consistent (db w)) (delete_tasks_id id).
Proof.
  unfold delete_tasks_id. apply keeps_bind; [apply keeps_deleteTask|].
  intros deleted. destruct (negb deleted); apply keeps_ret.
Qed.

Lemma keeps_call_tool store c :
  keeps (λ w, consistent (db w)) (call_tool store c).
Proof.
  destruct c as [|taskId|taskId status|taskId content filePath]; simpl.
  - unfold list_my_tasks. apply keeps_bind_query. by intros.
  - unfold get_task. apply keeps_bind_query. intros w Hc.
    by destruct (getTask taskId (db w)).
  - unfold update_task_status. apply keeps_bind_query. intros w Hc.
    destruct (getTask taskId (db w)) as [task|] eqn:Htask; [|done].
    apply (found_task taskId _ w task Hc Htask).
    destruct status; keeps_holds_task taskId.
  - unfold post_task_result. apply keeps_bind_query. intros w Hc.
    destruct (getTask taskId (db w)) as [task|] eqn:Htask; [|done].
    apply (found_task taskId _ w task Hc Htask).
    keeps_holds_task taskId.
Qed.

Lemma run_op_consistent o w : consistent (db w) → consistent (db (run_op o w)).
Proof.
  destruct o; simpl; intros Hc.
  - done.
  - by apply keeps_post_tasks.
  - unfold get_tasks_id, bind, query. simpl.
    by destruct (buildTaskDetail id (db w)).
  - by apply keeps_patch_tasks_id_status.
  - by apply keeps_post_tasks_id_comments.
  - by apply keeps_delete_tasks_id.
  - by apply keeps_call_tool.
Qed.

Lemma reachable_consistent w : reachable w → consistent (db w).
Proof.
  induction 1 as [|w o _ IH].
  - apply consistent_empty.
  - by apply run_op_consistent.
Qed.

(** ** The status column *)

Lemma exec_statuses_ok s d d' n :
  statuses_ok d → (∀ st, status_written s = Some st → st ∈ TaskStatus) →
  exec s d = Some (d', n) → statuses_ok d'.
Proof.
  intros Hok Hst Hexec.
  destruct s; simpl in Hexec; repeat case_decide; simplify_eq; try done.
  - intros t [Ht| ->%list_elem_of_singleton]%elem_of_app; [auto|].
    by apply Hst.
  - intros t [r [-> Hr]]%list_elem_of_fmap.
    destruct (decide _); simpl; [by apply Hst|auto].
  - intros t [_ Ht]%list_elem_of_filter. auto.
Qed.

Lemma keeps_statuses_db_run s :
  (∀ st, status_written s = Some st → st ∈ TaskStatus) →
  keeps (λ w, statuses_ok (db w)) (db_run s).
Proof.
  intros Hst. apply (keeps_db_run statuses_ok). intros d d' n Hok.
  by apply exec_statuses_ok.
Qed.

Ltac keeps_statuses :=
  repeat first
    [ apply keeps_ret
    | apply keeps_query
    | apply (keeps_randomUUID statuses_ok)
    | apply (keeps_Date_now statuses_ok)
    | apply (keeps_pushToAgent statuses_ok)
    | apply keeps_for_of; intros ?
    | apply keeps_statuses_db_run; simpl; intros ? [= <-];
      unfold TaskStatus; set_solver
    | match goal with
      | |- keeps _ (if ?b then _ else _) => destruct b
      | |- keeps _ (match ?x with _ => _ end) => destruct x
      | |- keeps _ (bind _ _) => apply keeps_bind; [|intros ?]
      end ].

Lemma run_op_statuses_ok o w :
  statuses_ok (db w) → statuses_ok (db (run_op o w)).
Proof.
  revert w.
  destruct o as [|body|id|id body|id body|id|store c]; cbn [run_op];
    match goal with
    | |- ∀ w, _ → statuses_ok (db (snd (?m w))) =>
        change (keeps (λ w, statuses_ok (db w)) m)
    end.
  - unfold get_tasks. keeps_statuses.
  - unfold post_tasks, createTask, notifyAssignees, push_all. keeps_statuses.
  - unfold get_tasks_id. keeps_statuses.
  - unfold patch_tasks_id_status, updateTaskStatus, addComment,
      notifyRejection, push_all. keeps_statuses.
  - unfold post_tasks_id_comments, addComment. keeps_statuses.
  - unfold delete_tasks_id, deleteTask. keeps_statuses.
  - destruct c as [|taskId|taskId status|taskId content filePath];
      unfold call_tool, list_my_tasks, get_task, update_task_status,
        post_task_result, updateTaskStatus, addComment, addTaskResult;
      try destruct status; keeps_statuses.
Qed.

(** C5: the status of every stored task is one of [todo], [in_progress],
    [review], [done]. This holds in the empty store, every public operation
    (task creation, the two agent tools, approval and rejection, comments,
    deletion, the read operations) keeps it from any state in which it
    holds, and so it holds in every state the operations can reach. *)
Theorem status_is_always_enumerated :
  statuses_ok (db init_world)
  ∧ (∀ o w, statuses_ok (db w) → statuses_ok (db (run_op o w)))
  ∧ (∀ w, reachable w → statuses_ok (db w)).
Proof.
  split; [|split].
  - intros t Ht. by apply not_elem_of_nil in Ht.
  - apply run_op_statuses_ok.
  - induction 1 as [|w o _ IH].
    + intros t Ht. by apply not_elem_of_nil in Ht.
    + by apply run_op_statuses_ok.
Qed.

(** ** Deleting a task *)

Lemma filter_all {A} (P : A → Prop) `{∀ x, Decision (P x)} (l : list A) :
  (∀ x, x ∈ l → P x) → filter P l = l.
Proof.
  induction l as [|x l IH]; intros Hall; [done|].
  rewrite filter_cons, decide_True by (apply Hall; left).
  f_equal. apply IH. intros y Hy. apply Hall. by right.
Qed.

Lemma getTask_without_task id d : getTask id (without_task id d) = None.
Proof.
  apply getTask_None. unfold without_task. simpl.
  intros [r [E [Hne _]%list_elem_of_filter]]%list_elem_of_fmap. by apply Hne.
Qed.

(** Without the task and with no row pointing to it, [deleteTask] leaves the
    four tables as they are. *)
Lemma without_task_absent id d :
  consistent d → id ∉ task_ids d → without_task id d = d.
Proof.
  intros [_ _ _ _ _ Hafk Hcfk Hrfk] Hid. unfold without_task.
  destruct d as [ts as_ cs rs]. simpl in *. f_equal.
  - apply filter_all. intros r Hr E. apply Hid. rewrite <- E.
    by apply list_elem_of_fmap_2.
  - apply filter_all. intros r Hr E. apply Hid. rewrite <- E. auto.
  - apply filter_all. intros r Hr E. apply Hid. rewrite <- E. auto.
  - apply filter_all. intros r Hr E. apply Hid. rewrite <- E. auto.
Qed.

Lemma delete_tasks_id_run id w :
  delete_tasks_id id w
  = (Returned (if bool_decide (is_Some (getTask id (db w)))
               then json JOk 200
               else json (JError "Task not found") 404),
     mkWorld (without_task id (db w))
             (journal w ++ [DeleteAssignees id; DeleteComments id;
                            DeleteResults id; DeleteTask id])
             (uuid_draws w) (clock_reads w) (outbox w) (console w)).
Proof.
  unfold delete_tasks_id.
  erewrite bind_returned by apply deleteTask_run.
  unfold getTask.
  by destruct (filter (λ r, TaskRow.id r = id) (tasks (db w))) as [|r l].
Qed.

(** C7: in a state the operations can reach, [DELETE /tasks/:id] runs the
    four deletions in the order assignments, comments, results, task, and
    leaves no task, assignment, comment or result row of that id while every
    other row stays. If the task existed the answer is 200 and [get_task]
    (and [GET /tasks/:id]) on that id then answer not found; if it did not,
    the answer is 404 and the four tables are unchanged. *)
Theorem delete_cascades (w : World) (id : string) :
  reachable w →
  let w' := snd (delete_tasks_id id w) in
  journal w' = journal w ++ [DeleteAssignees id; DeleteComments id;
                             DeleteResults id; DeleteTask id]
  ∧ db w' = without_task id (db w)
  ∧ (id ∉ task_ids (db w'))
  ∧ (id ∉ TaskAssigneeRow.task_id <$> task_assignees (db w'))
  ∧ (id ∉ TaskCommentRow.task_id <$> task_comments (db w'))
  ∧ (id ∉ TaskResultRow.task_id <$> task_results (db w'))
  ∧ (is_Some (getTask id (db w)) →
       fst (delete_tasks_id id w) = Returned (json JOk 200)
       ∧ get_task id w' = (Returned NotFound, w')
       ∧ get_tasks_id id w'
         = (Returned (json (JError "Task not found") 404), w'))
  ∧ (getTask id (db w) = None →
       fst (delete_tasks_id id w)
       = Returned (json (JError "Task not found") 404)
       ∧ db w' = db w).
Proof.
  intros Hreach w'. subst w'. rewrite delete_tasks_id_run. cbn [fst snd db journal].
  assert (∀ {A} (f : A → string) (l : list A),
            id ∉ f <$> filter (λ r, f r ≠ id) l) as Hgone.
  { intros A f l [r [E [Hne _]%list_elem_of_filter]]%list_elem_of_fmap.
    by apply Hne. }
  split; [done|]. split; [done|].
  split; [apply Hgone|]. split; [apply (Hgone _ TaskAssigneeRow.task_id)|].
  split; [apply (Hgone _ TaskCommentRow.task_id)|].
  split; [apply (Hgone _ TaskResultRow.task_id)|].
  split.
  - intros Hsome. rewrite bool_decide_eq_true_2 by done.
    split; [done|]. unfold get_task, get_tasks_id, buildTaskDetail.
    rewrite !bind_query. cbn [db].
    by rewrite getTask_without_task.
  - intros Hnone. rewrite bool_decide_eq_false_2
      by (rewrite Hnone; by intros [? ?]).
    split; [done|]. apply without_task_absent.
    + by apply reachable_consistent.
    + by apply getTask_None.
Qed.

(** ** Terminated sessions *)

(** The tools never give back a draw of [randomUUID()]. *)
Lemma keeps_draws_call_tool (n : nat) store c :
  keeps (λ w, (n ≤ uuid_draws w)%nat) (call_tool store c).
Proof.
  assert (keeps (λ w, (n ≤ uuid_draws w)%nat) randomUUID) as Huuid.
  { intros w Hw. simpl. lia. }
  assert (keeps (λ w, (n ≤ uuid_draws w)%nat) Date_now) as Hnow by (by intros w).
  assert (∀ s, keeps (λ w, (n ≤ uuid_draws w)%nat) (db_run s)) as Hrun.
  { intros s w Hw. unfold db_run. by destruct (exec s (db w)) as [[d k]|]. }
  destruct c as [|taskId|taskId status|taskId content filePath];
    unfold call_tool, list_my_tasks, get_task, update_task_status,
      post_task_result, updateTaskStatus, addComment, addTaskResult;
    repeat first
      [ apply keeps_ret | apply keeps_query | apply Huuid | apply Hnow
      | apply Hrun
      | match goal with
        | |- keeps _ (if ?b then _ else _) => destruct b
        | |- keeps _ (match ?x with _ => _ end) => destruct x
        | |- keeps _ (bind _ _) => apply keeps_bind; [|intros ?]
        end ].
Qed.

Lemma fetch_DELETE req sv token :
  pathname req = "/mcp" →
  method req = "DELETE" →
  header_mcp_session_id req = Some token →
  token ≠ EmptyString →
  fetch req sv = (http_204, mkServer (world sv) (delete token (sessions sv))).
Proof.
  intros Hpath Hmethod Hheader Htoken%truthy_Some. unfold fetch.
  by rewrite Hpath, Hmethod, Hheader, Htoken.
Qed.

Lemma fetch_unknown_token req sv token :
  pathname req = "/mcp" →
  method req ≠ "DELETE" →
  header_mcp_session_id req = Some token →
  sessions sv !! token = None →
  fetch req sv = (from_transport invalid_session, sv).
Proof.
  intros Hpath Hmethod%String.eqb_neq Hheader Hnone. unfold fetch.
  rewrite Hpath, Hmethod, Hheader. cbn [String.eqb Ascii.eqb Bool.eqb negb andb].
  cbn [from_option id]. rewrite Hnone.
  replace (if truthy (Some token) then None else None)
    with (@None Session) by (by destruct (truthy _)).
  unfold handleRequest. cbn [sessionId]. by rewrite Hheader.
Qed.

Lemma fetch_retired token n req sv :
  (∀ k, (n ≤ k)%nat → uuid_at k ≠ token) →
  retired token n sv → retired token n (snd (fetch req sv)).
Proof.
  intros Hfuture [Hnone Hn]. unfold fetch.
  destruct (negb _); [done|].
  destruct (_ && _).
  { split; [|done]. simpl. apply lookup_delete_None. by right. }
  destruct (if truthy _ then _ else _) as [[[[sid|]] identity]|];
    unfold handleRequest; cbn [transport sessionId agentId].
  - destruct (bool_decide _); [|done].
    destruct (message req) as [|c|]; try done.
    pose proof (keeps_draws_call_tool n (Some identity) c (world sv) Hn) as Hk.
    by destruct (call_tool _ c (world sv)) as [[r|e] w'].
  - destruct (header_mcp_session_id req); [done|].
    split; simpl; [|lia]. rewrite lookup_insert_ne; [done|]. by apply Hfuture.
  - destruct (header_mcp_session_id req); [done|].
    split; simpl; [|lia]. rewrite lookup_insert_ne; [done|]. by apply Hfuture.
Qed.

Lemma serve_retired token n reqs sv :
  (∀ k, (n ≤ k)%nat → uuid_at k ≠ token) →
  retired token n sv → retired token n (serve reqs sv).
Proof.
  intros Hfuture. revert sv.
  induction reqs as [|req reqs IH]; intros sv Hsv; [done|].
  apply IH. by apply fetch_retired.
Qed.

(** C8, as the code has it: after a [DELETE] that carries a session token,
    the token and its identity are out of the session table and the store
    is untouched. Provided [randomUUID()] never hands that token out again,
    whatever requests follow, the token stays out of the table, and a later
    request that carries it is answered without any tool or store operation
    running: 404 outside of [/mcp], 204 again for a [DELETE], and a
    rejection as an invalid session for every other request. *)
Theorem terminated_session_is_retired
    (sv : Server) (token : string) (del : Request)
    (between : list Request) (req : Request) :
  pathname del = "/mcp" →
  method del = "DELETE" →
  header_mcp_session_id del = Some token →
  token ≠ EmptyString →
  (∀ k, (uuid_draws (world sv) ≤ k)%nat → uuid_at k ≠ token) →
  header_mcp_session_id req = Some token →
  let sv1 := snd (fetch del sv) in
  let sv2 := serve between sv1 in
  fetch del sv = (http_204, sv1)
  ∧ sessions sv1 !! token = None
  ∧ world sv1 = world sv
  ∧ sessions sv2 !! token = None
  ∧ fetch req sv2
    = (if negb (String.eqb (pathname req) "/mcp") then http_404
       else if String.eqb (method req) "DELETE" then http_204
       else from_transport invalid_session,
       sv2).
Proof.
  intros Hpath Hmethod Hheader Htoken Hfuture Hheader'.
  intros sv1 sv2.
  assert (sv1 = mkServer (world sv) (delete token (sessions sv))) as Hsv1eq.
  { subst sv1. by rewrite (fetch_DELETE del sv token). }
  rewrite (fetch_DELETE del sv token) by done. rewrite <- Hsv1eq.
  assert (retired token (uuid_draws (world sv)) sv1) as Hsv1.
  { rewrite Hsv1eq. split; [|done]. simpl. apply lookup_delete_eq. }
  assert (retired token (uuid_draws (world sv)) sv2) as [Hsv2 _]
    by (by apply serve_retired).
  split; [done|]. split; [apply Hsv1|].
  split; [by rewrite Hsv1eq|]. split; [done|].
  destruct (String.eqb (pathname req) "/mcp") eqn:Hp; cbn [negb].
  - apply String.eqb_eq in Hp.
    destruct (String.eqb (method req) "DELETE") eqn:Hm.
    + apply String.eqb_eq in Hm.
      rewrite (fetch_DELETE req sv2 token) by done.
      f_equal. destruct sv2 as [w2 ss2]. simpl in *. f_equal.
      by apply delete_id.
    + apply String.eqb_neq in Hm. by apply (fetch_unknown_token req sv2 token).
  - unfold fetch. by rewrite Hp.
Qed.

(** ** The latest result of each agent *)

#[local] Instance not_after_transitive {A} (key : A → Z) :
  Transitive (not_after key).
Proof. intros a b c. unfold not_after. lia. Qed.

#[local] Instance not_after_total {A} (key : A → Z) : Total (not_after key).
Proof. intros a b. unfold not_after. lia. Qed.

#[local] Instance flip_not_after_transitive {A} (key : A → Z) :
  Transitive (flip (not_after key)).
Proof. intros a b c. unfold flip, not_after. lia. Qed.

#[local] Instance flip_not_after_total {A} (key : A → Z) :
  Total (flip (not_after key)).
Proof. intros a b. unfold flip, not_after. lia. Qed.

Lemma order_asc_sorted {A} (key : A → Z) l :
  Sorted (not_after key) (order_asc key l).
Proof. apply (Sorted_merge_sort _). Qed.

Lemma order_asc_perm {A} (key : A → Z) l : order_asc key l ≡ₚ l.
Proof. apply merge_sort_Permutation. Qed.

(** [ORDER BY key DESC LIMIT 1] of a table that is not empty: a row whose
    key no other row exceeds. *)
Lemma order_desc_head {A} (key : A → Z) (l : list A) (m : A) :
  head (order_desc key l) = Some m →
  m ∈ l ∧ ∀ x, x ∈ l → (key x ≤ key m)%Z.
Proof.
  intros Hhead.
  pose proof (merge_sort_Permutation (flip (not_after key)) l) as Hperm.
  pose proof (StronglySorted_merge_sort (flip (not_after key)) l) as Hsorted.
  fold (order_desc key l) in Hperm, Hsorted.
  destruct (order_desc key l) as [|m' rest]; simplify_eq/=.
  split.
  - rewrite <- Hperm. left.
  - intros x Hx. rewrite <- Hperm in Hx.
    apply StronglySorted_inv in Hsorted as [_ Hall].
    rewrite Forall_forall in Hall.
    apply elem_of_cons in Hx as [->|Hx]; [lia|]. by apply Hall.
Qed.

Lemma order_desc_head_is_Some {A} (key : A → Z) (l : list A) (x : A) :
  x ∈ l → is_Some (head (order_desc key l)).
Proof.
  intros Hx.
  pose proof (merge_sort_Permutation (flip (not_after key)) l) as Hperm.
  fold (order_desc key l) in Hperm. rewrite <- Hperm in Hx.
  destruct (order_desc key l); [by apply not_elem_of_nil in Hx|by eexists].
Qed.

Lemma latest_id_of_latest r d :
  latest_id_of r d
  = match latest (TaskResultRow.task_id r) (TaskResultRow.agent_id r) d with
    | Some m => [TaskResultRow.id m]
    | None => []
    end.
Proof.
  unfold latest_id_of, latest, peers.
  by destruct (order_desc _ _) as [|m rest].
Qed.

Lemma latest_Some taskId agentId d m :
  latest taskId agentId d = Some m →
  m ∈ task_results d
  ∧ TaskResultRow.task_id m = taskId
  ∧ TaskResultRow.agent_id m = agentId
  ∧ ∀ x, x ∈ task_results d →
         TaskResultRow.task_id x = taskId →
         TaskResultRow.agent_id x = agentId →
         (TaskResultRow.created_at x ≤ TaskResultRow.created_at m)%Z.
Proof.
  intros [Hm Hmax]%order_desc_head.
  apply list_elem_of_filter in Hm as [[Ht Ha] Hm].
  repeat split; try done.
  intros x Hx Hxt Hxa. apply Hmax. by apply list_elem_of_filter.
Qed.

Lemma latest_is_Some d r :
  r ∈ task_results d →
  is_Some (latest (TaskResultRow.task_id r) (TaskResultRow.agent_id r) d).
Proof.
  intros Hr. apply (order_desc_head_is_Some _ _ r).
  by apply list_elem_of_filter.
Qed.

Lemma NoDup_fmap_inj {A B} (f : A → B) (l : list A) (x y : A) :
  NoDup (f <$> l) → x ∈ l → y ∈ l → f x = f y → x = y.
Proof.
  induction l as [|z l IH]; simpl; intros Hnd Hx Hy Hxy.
  { by apply not_elem_of_nil in Hx. }
  apply NoDup_cons in Hnd as [Hz Hnd].
  apply elem_of_cons in Hx as [->|Hx]; apply elem_of_cons in Hy as [->|Hy];
    try done.
  - exfalso. apply Hz. rewrite Hxy. by apply list_elem_of_fmap_2.
  - exfalso. apply Hz. rewrite <- Hxy. by apply list_elem_of_fmap_2.
  - by apply IH.
Qed.

(** The rows the outer query of [getLatestResultPerAgent] keeps. *)
Lemma selected_iff taskId d r :
  NoDup (TaskResultRow.id <$> task_results d) →
  r ∈ task_results d →
  (TaskResultRow.task_id r = taskId
   ∧ TaskResultRow.id r ∈ latest_id_of r d)
  ↔ (TaskResultRow.task_id r = taskId
     ∧ latest taskId (TaskResultRow.agent_id r) d = Some r).
Proof.
  intros Hpk Hr. rewrite latest_id_of_latest. split.
  - intros [<- Hid]. split; [done|].
    destruct (latest _ _ d) as [m|] eqn:Hm;
      [|by apply not_elem_of_nil in Hid].
    apply list_elem_of_singleton in Hid. f_equal. symmetry.
    apply latest_Some in Hm as (Hm & _).
    by apply (NoDup_fmap_inj TaskResultRow.id (task_results d)).
  - intros [<- ->]. split; [done|]. left.
Qed.

Lemma elem_of_getLatestResultPerAgent_filter taskId d r :
  r ∈ getLatestResultPerAgent taskId d
  ↔ (TaskResultRow.task_id r = taskId
     ∧ TaskResultRow.id r ∈ latest_id_of r d)
    ∧ r ∈ task_results d.
Proof.
  unfold getLatestResultPerAgent. rewrite order_asc_perm.
  apply (list_elem_of_filter
           (λ r, TaskResultRow.task_id r = taskId
                 ∧ TaskResultRow.id r ∈ latest_id_of r d)).
Qed.

Lemma elem_of_getLatestResultPerAgent taskId d r :
  NoDup (TaskResultRow.id <$> task_results d) →
  r ∈ getLatestResultPerAgent taskId d
  ↔ r ∈ task_results d
    ∧ TaskResultRow.task_id r = taskId
    ∧ latest taskId (TaskResultRow.agent_id r) d = Some r.
Proof.
  intros Hpk. unfold getLatestResultPerAgent.
  rewrite order_asc_perm, list_elem_of_filter. split.
  - intros [Hsel Hr]. split; [done|]. by apply selected_iff.
  - intros [Hr Hsel]. split; [|done]. by apply selected_iff.
Qed.

Lemma order_asc_pair {A} (key : A → Z) (a b : A) :
  (key b < key a)%Z → order_asc key [a; b] = [b; a].
Proof.
  intros Hlt. unfold order_asc, merge_sort. simpl.
  rewrite decide_False by (unfold not_after; lia).
  apply list_merge_nil_r.
Qed.

(** C2: [getLatestResultPerAgent] reads the result history of a task (the
    primary key makes the row ids distinct) and returns, for every agent
    that has a result for the task, exactly one row: a row of that agent and
    task that no other row of that agent and task is newer than. The rows
    come in ascending order of [created_at]. The query leaves the process
    state as it is. For the history R1 (agent A, t1), R2 (agent A, t3),
    R3 (agent B, t2) with t1 < t2 < t3 the answer is [R3; R2]. *)
Theorem latest_result_per_agent (d : Database) (taskId : string) :
  NoDup (TaskResultRow.id <$> task_results d) →
  let answer := getLatestResultPerAgent taskId d in
  (∀ r, r ∈ answer →
     r ∈ task_results d
     ∧ TaskResultRow.task_id r = taskId
     ∧ ∀ r2, r2 ∈ task_results d →
             TaskResultRow.task_id r2 = taskId →
             TaskResultRow.agent_id r2 = TaskResultRow.agent_id r →
             (TaskResultRow.created_at r2 ≤ TaskResultRow.created_at r)%Z)
  ∧ (∀ r, r ∈ task_results d → TaskResultRow.task_id r = taskId →
       TaskResultRow.agent_id r ∈ TaskResultRow.agent_id <$> answer)
  ∧ NoDup (TaskResultRow.agent_id <$> answer)
  ∧ Sorted (not_after TaskResultRow.created_at) answer
  ∧ (∀ w, db w = d →
       query (getLatestResultPerAgent taskId) w = (Returned answer, w))
  ∧ (∀ R1 R2 R3,
       task_results d = [R1; R2; R3] →
       TaskResultRow.task_id R1 = taskId →
       TaskResultRow.task_id R2 = taskId →
       TaskResultRow.task_id R3 = taskId →
       TaskResultRow.agent_id R1 = TaskResultRow.agent_id R2 →
       TaskResultRow.agent_id R3 ≠ TaskResultRow.agent_id R2 →
       (TaskResultRow.created_at R1 < TaskResultRow.created_at R3)%Z →
       (TaskResultRow.created_at R3 < TaskResultRow.created_at R2)%Z →
       answer = [R3; R2]).
Proof.
  intros Hpk answer.
  assert (∀ r, r ∈ answer ↔
               r ∈ task_results d ∧ TaskResultRow.task_id r = taskId
               ∧ latest taskId (TaskResultRow.agent_id r) d = Some r)
    as Hanswer by (intros r; by apply elem_of_getLatestResultPerAgent).
  split; [|split; [|split; [|split; [|split]]]].
  - intros r (Hr & Ht & Hlatest)%Hanswer.
    apply latest_Some in Hlatest as (_ & _ & _ & Hmax). auto.
  - intros r Hr Ht.
    destruct (latest_is_Some d r Hr) as [m Hm]. rewrite Ht in Hm.
    pose proof (latest_Some _ _ _ _ Hm) as (Hmr & Hmt & Hma & _).
    apply list_elem_of_fmap. exists m. split; [done|].
    apply Hanswer. by rewrite Hma.
  - apply NoDup_fmap_2_strong.
    + intros x y (_ & _ & Hx)%Hanswer (_ & _ & Hy)%Hanswer Hxy.
      rewrite Hxy in Hx. congruence.
    + unfold answer, getLatestResultPerAgent. rewrite order_asc_perm.
      apply NoDup_filter. by apply NoDup_fmap_1 in Hpk.
  - apply order_asc_sorted.
  - by intros w <-.
  - intros R1 R2 R3 Hrows Ht1 Ht2 Ht3 Ha12 Ha32 Hlt13 Hlt32.
    assert (R1 ∈ task_results d) as HR1 by (rewrite Hrows; left).
    assert (R2 ∈ task_results d) as HR2 by (rewrite Hrows; right; left).
    assert (R3 ∈ task_results d) as HR3 by (rewrite Hrows; do 2 right; left).
    assert (R1 ∉ answer) as Hout1.
    { intros (_ & _ & Hlatest)%Hanswer.
      apply latest_Some in Hlatest as (_ & _ & _ & Hmax).
      specialize (Hmax R2 HR2 Ht2 (eq_sym Ha12)). lia. }
    assert (R2 ∈ answer) as Hin2.
    { apply Hanswer. split; [done|]. split; [done|].
      destruct (latest_is_Some d R2 HR2) as [m Hm]. rewrite Ht2 in Hm.
      rewrite Hm. f_equal.
      apply latest_Some in Hm as (Hmr & _ & Hma & Hmax).
      specialize (Hmax R2 HR2 Ht2 eq_refl).
      rewrite Hrows in Hmr.
      apply elem_of_cons in Hmr as [->|Hmr]; [lia|].
      apply elem_of_cons in Hmr as [->|Hmr]; [done|].
      apply list_elem_of_singleton in Hmr as ->. done. }
    assert (R3 ∈ answer) as Hin3.
    { apply Hanswer. split; [done|]. split; [done|].
      destruct (latest_is_Some d R3 HR3) as [m Hm]. rewrite Ht3 in Hm.
      rewrite Hm. f_equal.
      apply latest_Some in Hm as (Hmr & _ & Hma & _).
      rewrite Hrows in Hmr.
      apply elem_of_cons in Hmr as [->|Hmr]; [congruence|].
      apply elem_of_cons in Hmr as [->|Hmr]; [congruence|].
      by apply list_elem_of_singleton in Hmr as ->. }
    subst answer.
    rewrite (elem_of_getLatestResultPerAgent_filter taskId d) in Hout1, Hin2, Hin3.
    destruct Hin2 as [Hsel2 _]. destruct Hin3 as [Hsel3 _].
    unfold getLatestResultPerAgent. rewrite Hrows.
    rewrite !filter_cons, filter_nil.
    rewrite decide_False by (intros Hsel1; by apply Hout1).
    rewrite decide_True by done. rewrite decide_True by done.
    by apply order_asc_pair.
Qed.

(** ** Rejection with feedback *)

Lemma contains_here (x s : string) : contains x (x +:+ s).
Proof. by exists EmptyString, s. Qed.

Lemma append_assoc (s t u : string) : (s +:+ t) +:+ u = s +:+ (t +:+ u).
Proof.
  induction s as [|a s IH]; [done|].
  change (String a ((s +:+ t) +:+ u) = String a (s +:+ (t +:+ u))).
  by f_equal.
Qed.

Lemma append_nil_r (s : string) : s +:+ EmptyString = s.
Proof.
  induction s as [|a s IH]; [done|].
  change (String a (s +:+ EmptyString) = String a s). by f_equal.
Qed.

Lemma contains_refl (x : string) : contains x x.
Proof. exists EmptyString, EmptyString. by rewrite append_nil_r. Qed.

Lemma contains_append_r (x s t : string) :
  contains x t → contains x (s +:+ t).
Proof.
  intros (before & after & ->). exists (s +:+ before), after.
  by rewrite append_assoc.
Qed.

Lemma contains_rejection_message taskId title feedback :
  contains feedback (rejection_message taskId title feedback).
Proof.
  unfold rejection_message, join_lines. cbn [String.concat].
  do 8 apply contains_append_r. rewrite append_assoc.
  apply contains_append_r, contains_here.
Qed.

Lemma push_all_run assigneeIds content w :
  push_all assigneeIds content w
  = (Returned tt, did_push_all assigneeIds content w).
Proof.
  unfold push_all, did_push_all. revert w.
  induction assigneeIds as [|id ids IH]; intros w.
  - simpl. unfold ret. rewrite !app_nil_r. by destruct w.
  - cbn [for_of]. unfold bind, pushToAgent at 1. rewrite IH. simpl.
    rewrite filter_cons. f_equal. f_equal.
    + by rewrite <- app_assoc.
    + destruct (push_fails id content); simpl; [|done].
      by rewrite <- app_assoc.
Qed.

Lemma patch_reject_run w taskId task feedback :
  getTask taskId (db w) = Some task →
  feedback ≠ EmptyString →
  uuid_at (uuid_draws w) ∉ TaskCommentRow.id <$> task_comments (db w) →
  patch_tasks_id_status taskId
    (Some (mkStatusBody (Some "reject") (Some feedback))) w
  = (Returned
       (json (JDetail
                (buildTaskDetail taskId
                   (db (did_reject taskId (TaskRow.title task) feedback w))))
             200),
     did_reject taskId (TaskRow.title task) feedback w).
Proof.
  intros Htask Hfeedback%truthy_Some Hfresh.
  unfold patch_tasks_id_status. rewrite bind_query, Htask.
  cbn [body_action body_feedback].
  rewrite bool_decide_eq_false_2 by done.
  rewrite bool_decide_eq_true_2 by done.
  rewrite Hfeedback. cbn [negb from_option id].
  erewrite bind_returned by apply updateTaskStatus_run.
  erewrite bind_returned by (by apply addComment_fresh).
  rewrite bind_query. unfold notifyRejection.
  erewrite bind_returned by apply push_all_run.
  reflexivity.
Qed.

(** * Further properties of the routes and tools *)

(** ** [PATCH /tasks/:id/status]: approval and malformed requests *)

(** X1: an [approve] decision on an existing task is answered 200 with the
    updated task; whatever the status was (no source state is checked) and
    whatever [feedback] the body carries, the task is then [done], exactly one
    comment [[System] Task approved and marked as done.] by the human is
    appended, and nothing else changes: no push is attempted, results and
    assignments stay. The identifier drawn for the comment is assumed not to
    be in use. *)
Theorem approve_marks_done
    (w : World) (taskId : string) (feedback : option string) :
  is_Some (getTask taskId (db w)) →
  uuid_at (uuid_draws w) ∉ TaskCommentRow.id <$> task_comments (db w) →
  ∃ (comment : TaskCommentRow.t) (w' : World),
    patch_tasks_id_status taskId
      (Some (mkStatusBody (Some "approve") feedback)) w
    = (Returned (json (JDetail (buildTaskDetail taskId (db w'))) 200), w')
    ∧ TaskRow.status <$> getTask taskId (db w') = Some "done"
    ∧ task_comments (db w') = task_comments (db w) ++ [comment]
    ∧ TaskCommentRow.task_id comment = taskId
    ∧ TaskCommentRow.author_type comment = "human"
    ∧ TaskCommentRow.content comment
      = "[System] Task approved and marked as done."
    ∧ outbox w' = outbox w
    ∧ task_results (db w') = task_results (db w)
    ∧ task_assignees (db w') = task_assignees (db w).
Proof.
  intros [task Htask] Hfresh.
  exists (new_comment taskId "human" "human" "Human"
            "[System] Task approved and marked as done."
            (did_updateTaskStatus taskId "done" w)),
    (did_approve taskId w).
  split.
  { unfold patch_tasks_id_status. rewrite bind_query, Htask.
    cbn [body_action]. rewrite bool_decide_eq_true_2 by done.
    erewrite bind_returned by apply updateTaskStatus_run.
    erewrite bind_returned by (by apply addComment_fresh).
    reflexivity. }
  split.
  { unfold did_approve.
    rewrite getTask_did_addComment, getTask_did_updateTaskStatus.
    by rewrite Htask. }
  by repeat split.
Qed.

(** X2: the requests [PATCH /tasks/:id/status] refuses leave the process
    state as it is: an unknown task is answered 404 before the body is
    looked at (so also for a body that is not JSON), a body that is not JSON
    is answered 400, and so is an [action] other than [approve] and
    [reject]. *)
Theorem patch_status_refusals (w : World) (taskId : string) :
  (getTask taskId (db w) = None →
     ∀ body, patch_tasks_id_status taskId body w
             = (Returned (json (JError "Task not found") 404), w))
  ∧ (is_Some (getTask taskId (db w)) →
       patch_tasks_id_status taskId None w
       = (Returned (json (JError "Invalid JSON") 400), w))
  ∧ (is_Some (getTask taskId (db w)) →
       ∀ body, body_action body ≠ Some "approve" →
               body_action body ≠ Some "reject" →
               patch_tasks_id_status taskId (Some body) w
               = (Returned
                    (json (JError ("action must be " +:+ dq +:+ "approve"
                                   +:+ dq +:+ " or " +:+ dq +:+ "reject"
                                   +:+ dq)) 400),
                  w)).
Proof.
  split; [|split].
  - intros Hnone body. unfold patch_tasks_id_status.
    by rewrite bind_query, Hnone.
  - intros [task Htask]. unfold patch_tasks_id_status.
    by rewrite bind_query, Htask.
  - intros [task Htask] body Ha Hr. unfold patch_tasks_id_status.
    rewrite bind_query, Htask.
    by rewrite !bool_decide_eq_false_2 by done.
Qed.

(** ** [POST /tasks/:id/comments] *)

(** X3: a human comment with a non-empty content on an existing task is
    answered 201 with the stored comment (author [human], the content as
    given); the comments are the old ones followed by that comment, and the
    tasks (so every status), results, assignments and outbox are unchanged.
    The identifier drawn for the comment is assumed not to be in use. *)
Theorem post_comment_appends (w : World) (taskId content : string) :
  is_Some (getTask taskId (db w)) →
  content ≠ EmptyString →
  uuid_at (uuid_draws w) ∉ TaskCommentRow.id <$> task_comments (db w) →
  ∃ (comment : TaskCommentRow.t) (w' : World),
    post_tasks_id_comments taskId (Some (Some content)) w
    = (Returned (json (JComment comment) 201), w')
    ∧ TaskCommentRow.task_id comment = taskId
    ∧ TaskCommentRow.author_id comment = "human"
    ∧ TaskCommentRow.author_type comment = "human"
    ∧ TaskCommentRow.author_name comment = "Human"
    ∧ TaskCommentRow.content comment = content
    ∧ task_comments (db w') = task_comments (db w) ++ [comment]
    ∧ tasks (db w') = tasks (db w)
    ∧ task_results (db w') = task_results (db w)
    ∧ task_assignees (db w') = task_assignees (db w)
    ∧ outbox w' = outbox w.
Proof.
  intros [task Htask] Hcontent%truthy_Some Hfresh.
  exists (new_comment taskId "human" "human" "Human" content w),
    (did_addComment taskId "human" "human" "Human" content w).
  split; [|by repeat split].
  unfold post_tasks_id_comments. rewrite bind_query, Htask, Hcontent.
  cbn [negb from_option id].
  erewrite bind_returned by (by apply addComment_fresh).
  reflexivity.
Qed.

(** X4: [POST /tasks/:id/comments] refuses, with the process state
    unchanged, an unknown task (404, whatever the body), a body that is not
    JSON (400) and a content that is absent or empty (400). *)
Theorem post_comment_refusals (w : World) (taskId : string) :
  (getTask taskId (db w) = None →
     ∀ body, post_tasks_id_comments taskId body w
             = (Returned (json (JError "Task not found") 404), w))
  ∧ (is_Some (getTask taskId (db w)) →
       post_tasks_id_comments taskId None w
       = (Returned (json (JError "Invalid JSON") 400), w))
  ∧ (is_Some (getTask taskId (db w)) →
       ∀ content, truthy content = false →
                  post_tasks_id_comments taskId (Some content) w
                  = (Returned (json (JError "content is required") 400), w)).
Proof.
  split; [|split].
  - intros Hnone body. unfold post_tasks_id_comments.
    by rewrite bind_query, Hnone.
  - intros [task Htask]. unfold post_tasks_id_comments.
    by rewrite bind_query, Htask.
  - intros [task Htask] content Hcontent. unfold post_tasks_id_comments.
    by rewrite bind_query, Htask, Hcontent.
Qed.

(** ** The tools *)

(** X5: on an id no task has, [get_task], [update_task_status] and
    [post_task_result] answer the error [Task not found], whoever calls, and
    leave the process state unchanged; the check comes before the assignee
    check. *)
Theorem tools_on_missing_task
    (w : World) (store : option string) (taskId : string) :
  getTask taskId (db w) = None →
  get_task taskId w = (Returned NotFound, w)
  ∧ (∀ status,
       update_task_status store taskId status w = (Returned NotFound, w))
  ∧ (∀ content filePath,
       post_task_result store taskId content filePath w
       = (Returned NotFound, w)).
Proof.
  intros Hnone. split; [|split]; intros.
  - unfold get_task. by rewrite bind_query, Hnone.
  - unfold update_task_status. by rewrite bind_query, Hnone.
  - unfold post_task_result. by rewrite bind_query, Hnone.
Qed.

(** X6: [update_task_status] called by an assignee of an existing task
    succeeds from any status (also from [done]: the tool reads no source
    state): the task then has the status asked for, exactly one comment by
    the agent starting with [[System]] is appended, and results, assignments
    and outbox are unchanged. The identifier drawn for the comment is assumed
    not to be in use. *)
Theorem update_task_status_by_assignee
    (w : World) (store : option string) (taskId : string)
    (status : AgentStatus) :
  is_Some (getTask taskId (db w)) →
  getCallerAgentId store ∈ getTaskAssignees taskId (db w) →
  uuid_at (uuid_draws w) ∉ TaskCommentRow.id <$> task_comments (db w) →
  ∃ (comment : TaskCommentRow.t) (w' : World),
    update_task_status store taskId status w
    = (Returned (tool_ok (TStatus taskId (status_text status))), w')
    ∧ TaskRow.status <$> getTask taskId (db w') = Some (status_text status)
    ∧ task_comments (db w') = task_comments (db w) ++ [comment]
    ∧ TaskCommentRow.task_id comment = taskId
    ∧ TaskCommentRow.author_id comment = getCallerAgentId store
    ∧ TaskCommentRow.author_type comment = "agent"
    ∧ String.prefix "[System] " (TaskCommentRow.content comment) = true
    ∧ task_results (db w') = task_results (db w)
    ∧ task_assignees (db w') = task_assignees (db w)
    ∧ outbox w' = outbox w.
Proof.
  intros Htask Hin Hfresh.
  set (agentId := getCallerAgentId store).
  exists (new_comment taskId agentId "agent" (getAgentName agentId)
            (status_comment (getAgentName agentId) status)
            (did_updateTaskStatus taskId (status_text status) w)),
    (did_update_task_status agentId taskId status w).
  split; [by apply update_task_status_run|].
  split.
  { unfold did_update_task_status.
    rewrite getTask_did_addComment, getTask_did_updateTaskStatus.
    by destruct Htask as [task ->]. }
  repeat split; try reflexivity.
  apply prefix_append.
Qed.

(** ** [POST /tasks]: validation *)

(** X7: [POST /tasks] answers 400, with the process state unchanged, when
    the body is not JSON, when the title is absent or empty, and when the
    list of assignees is absent or empty. *)
Theorem post_tasks_refusals (w : World) :
  post_tasks None w = (Returned (json (JError "Invalid JSON") 400), w)
  ∧ ∀ body,
      truthy (body_title body) = false
      ∨ body_assigneeIds body = None
      ∨ body_assigneeIds body = Some [] →
      post_tasks (Some body) w
      = (Returned
           (json (JError "title and at least one assigneeId are required") 400),
         w).
Proof.
  split; [reflexivity|].
  intros [[title|] description [assigneeIds|]]; simpl; try done.
  intros [Htitle|[Hnone|Hnil]]; simplify_eq/=.
  - by rewrite Htitle.
  - by rewrite orb_true_r.
Qed.

(** ** [POST /tasks]: creation *)



Lemma filter_none {A} (P : A → Prop) `{∀ x, Decision (P x)} (l : list A) :
  (∀ x, x ∈ l → ¬ P x) → filter P l = [].
Proof.
  induction l as [|x l IH]; intros Hnone; [done|].
  rewrite filter_cons, decide_False by (apply Hnone; left).
  apply IH. intros y Hy. apply Hnone. by right.
Qed.



(** ** The read side of the store *)

(** The last row of [ORDER BY key ASC]: a row no other row exceeds. *)
Lemma order_asc_last {A} (key : A → Z) (l : list A) (m : A) :
  last (order_asc key l) = Some m →
  m ∈ l ∧ ∀ x, x ∈ l → (key x ≤ key m)%Z.
Proof.
  intros [init Hinit]%last_Some.
  pose proof (order_asc_perm key l) as Hperm.
  pose proof (StronglySorted_merge_sort (not_after key) l) as Hsorted.
  fold (order_asc key l) in Hsorted. rewrite Hinit in Hperm, Hsorted.
  split.
  - rewrite <- Hperm. apply elem_of_app. right. left.
  - intros x Hx. rewrite <- Hperm in Hx.
    apply elem_of_app in Hx as [Hx|Hx%list_elem_of_singleton].
    + apply (StronglySorted_app_1_elem_of _ _ _ x m) in Hsorted;
        [done|done|left].
    + subst. lia.
Qed.

Lemma order_asc_nil {A} (key : A → Z) (l : list A) :
  order_asc key l = [] ↔ l = [].
Proof.
  pose proof (order_asc_perm key l) as Hperm. split.
  - intros E. rewrite E in Hperm. by apply Permutation_nil_l in Hperm.
  - by intros ->.
Qed.

Lemma order_desc_sorted {A} (key : A → Z) l :
  Sorted (flip (not_after key)) (order_desc key l).
Proof. apply (Sorted_merge_sort _). Qed.

Lemma order_desc_perm {A} (key : A → Z) l : order_desc key l ≡ₚ l.
Proof. apply merge_sort_Permutation. Qed.

(** X9: [getTaskComments] and [getTaskResults] return exactly the rows of
    the task (each stored row once, no row of another task) in ascending
    order of [created_at]. *)
Theorem task_history_is_ordered (d : Database) (taskId : string) :
  Sorted (not_after TaskCommentRow.created_at) (getTaskComments taskId d)
  ∧ getTaskComments taskId d
    ≡ₚ filter (λ r, TaskCommentRow.task_id r = taskId) (task_comments d)
  ∧ (∀ r, r ∈ getTaskComments taskId d
          ↔ r ∈ task_comments d ∧ TaskCommentRow.task_id r = taskId)
  ∧ Sorted (not_after TaskResultRow.created_at) (getTaskResults taskId d)
  ∧ getTaskResults taskId d
    ≡ₚ filter (λ r, TaskResultRow.task_id r = taskId) (task_results d)
  ∧ (∀ r, r ∈ getTaskResults taskId d
          ↔ r ∈ task_results d ∧ TaskResultRow.task_id r = taskId).
Proof.
  unfold getTaskComments, getTaskResults.
  split; [apply order_asc_sorted|]. split; [apply order_asc_perm|].
  split.
  { intros r. rewrite order_asc_perm, list_elem_of_filter.
    split; intros [? ?]; by split. }
  split; [apply order_asc_sorted|]. split; [apply order_asc_perm|].
  intros r. rewrite order_asc_perm, list_elem_of_filter.
  split; intros [? ?]; by split.
Qed.

(** X10: every entry of the task list of [GET /tasks] shows a stored task
    with its assignees, and as [lastResult] the newest result of that task:
    a result of the task that no result of the task is newer than, or
    nothing exactly when the task has no result. The entries are the stored
    tasks, newest first. *)
Theorem task_list_shows_newest_result (d : Database) (e : TaskListEntry) :
  e ∈ buildTaskList d →
  let id := TaskRow.id (entry_task e) in
  entry_task e ∈ tasks d
  ∧ entry_assignees e = getTaskAssignees id d
  ∧ (entry_lastResult e = None
     ↔ ∀ r, r ∈ task_results d → TaskResultRow.task_id r ≠ id)
  ∧ (∀ r, entry_lastResult e = Some r →
       r ∈ task_results d
       ∧ TaskResultRow.task_id r = id
       ∧ ∀ r2, r2 ∈ task_results d → TaskResultRow.task_id r2 = id →
               (TaskResultRow.created_at r2 ≤ TaskResultRow.created_at r)%Z)
  ∧ entry_task <$> buildTaskList d ≡ₚ tasks d
  ∧ Sorted (flip (not_after TaskRow.created_at))
           (entry_task <$> buildTaskList d).
Proof.
  intros He id. unfold buildTaskList in *.
  apply list_elem_of_fmap in He as [task [-> Htask]]. simpl in id.
  assert (entry_task
            <$> ((λ task, mkTaskListEntry task
                    (getTaskAssignees (TaskRow.id task) d)
                    (last (getTaskResults (TaskRow.id task) d)))
                   <$> listTasks d) = listTasks d) as Hentries.
  { rewrite <- list_fmap_compose. apply list_fmap_id. }
  rewrite Hentries. cbn [entry_task entry_assignees entry_lastResult].
  split.
  { unfold listTasks in Htask. by rewrite order_desc_perm in Htask. }
  split; [done|]. split.
  { rewrite last_None. unfold getTaskResults. rewrite order_asc_nil. split.
    - intros Hnil r Hr E.
      eapply (filter_nil_not_elem_of _ _ r); [exact Hnil|exact E|exact Hr].
    - intros Hnone. apply filter_none. intros r Hr E. by apply (Hnone r). }
  split.
  { intros r [[E Hr]%list_elem_of_filter Hmax]%order_asc_last.
    split; [done|]. split; [done|].
    intros r2 Hr2 E2. apply Hmax. by apply list_elem_of_filter. }
  split; [apply order_desc_perm|apply order_desc_sorted].
Qed.

Lemma length_filter_unique {A} (P : A → Prop) `{∀ x, Decision (P x)}
    (l : list A) :
  NoDup l → (∀ x y, P x → P y → x = y) → (length (filter P l) ≤ 1)%nat.
Proof.
  intros Hnd Huniq.
  destruct (filter P l) as [|x [|y rest]] eqn:E; simpl; [lia|lia|].
  exfalso.
  assert (NoDup (filter P l)) as Hnd' by (by apply NoDup_filter).
  assert (x ∈ filter P l) as Hx by (rewrite E; left).
  assert (y ∈ filter P l) as Hy by (rewrite E; right; left).
  apply list_elem_of_filter in Hx as [Hx _].
  apply list_elem_of_filter in Hy as [Hy _].
  rewrite E in Hnd'. apply NoDup_cons in Hnd' as [Hxy _].
  apply Hxy. rewrite (Huniq x y Hx Hy). left.
Qed.

(** X11: [list_my_tasks] leaves the process state unchanged and returns
    exactly the stored tasks that list the caller among their assignees
    (whatever their status), newest first; in a consistent store (primary
    keys respected) no task is returned twice. *)
Theorem list_my_tasks_lists_assigned (w : World) (store : option string) :
  consistent (db w) →
  let mine := getTasksForAgent (getCallerAgentId store) (db w) in
  list_my_tasks store w = (Returned (tool_ok (TTasks mine)), w)
  ∧ (∀ t, t ∈ mine
          ↔ t ∈ tasks (db w)
            ∧ getCallerAgentId store ∈ getTaskAssignees (TaskRow.id t) (db w))
  ∧ Sorted (flip (not_after TaskRow.created_at)) mine
  ∧ NoDup mine.
Proof.
  intros Hc mine. subst mine. unfold getTasksForAgent.
  set (agentId := getCallerAgentId store).
  split; [reflexivity|]. split; [|split].
  - intros t. rewrite order_desc_perm, list_elem_of_bind. split.
    + intros [t' [[ta [Ht [[E Ha] Hta]%list_elem_of_filter]]%list_elem_of_bind
                 Ht']].
      apply list_elem_of_singleton in Ht. subst t'.
      split; [done|]. unfold getTaskAssignees. rewrite <- Ha.
      apply list_elem_of_fmap_2. by apply list_elem_of_filter.
    + intros [Ht [ta [-> [E Hta]%list_elem_of_filter]]%list_elem_of_fmap].
      exists t. split; [|done]. apply list_elem_of_bind. exists ta.
      split; [by apply list_elem_of_singleton|]. by apply list_elem_of_filter.
  - apply order_desc_sorted.
  - rewrite order_desc_perm. apply NoDup_bind.
    + intros t1 t2 t _ _
        [ta1 [H1%list_elem_of_singleton _]]%list_elem_of_bind
        [ta2 [H2%list_elem_of_singleton _]]%list_elem_of_bind.
      congruence.
    + intros t Ht.
      pose proof (length_filter_unique
                    (λ ta, TaskRow.id t = TaskAssigneeRow.task_id ta
                           ∧ TaskAssigneeRow.agent_id ta = agentId)
                    (task_assignees (db w)) (assignees_pk _ Hc)) as Hlen.
      destruct (filter _ (task_assignees (db w))) as [|ta [|ta' rest]].
      * constructor.
      * apply NoDup_singleton.
      * exfalso. simpl in Hlen.
        assert (2 ≤ 1)%nat; [|lia]. etrans; [|apply Hlen].
        { simpl. lia. }
        intros [t1 a1] [t2 a2] [E1 E1'] [E2 E2']. simpl in *. congruence.
    + apply (NoDup_fmap_1 TaskRow.id). apply (tasks_pk _ Hc).
Qed.

(** X12: [getLatestResultPerAgent] is empty exactly when the task has no
    result at all, and each row it returns is a row of [getTaskResults] for
    the same task. *)
Theorem latest_results_cover_history (d : Database) (taskId : string) :
  (getLatestResultPerAgent taskId d = [] ↔ getTaskResults taskId d = [])
  ∧ (∀ r, r ∈ getLatestResultPerAgent taskId d →
          r ∈ getTaskResults taskId d).
Proof.
  assert (∀ r, r ∈ getTaskResults taskId d
               ↔ TaskResultRow.task_id r = taskId ∧ r ∈ task_results d)
    as Hall.
  { intros r. unfold getTaskResults. rewrite order_asc_perm.
    apply (list_elem_of_filter (λ r, TaskResultRow.task_id r = taskId)). }
  split.
  - split.
    + intros Hnil. apply elem_of_nil_inv. intros r [Ht Hr]%Hall.
      destruct (latest_is_Some d r Hr) as [m Hm].
      pose proof (latest_Some _ _ _ _ Hm) as (Hmr & Hmt & Hma & _).
      assert (m ∈ getLatestResultPerAgent taskId d) as Hin.
      { apply elem_of_getLatestResultPerAgent_filter.
        split; [|done]. split; [congruence|].
        rewrite latest_id_of_latest, Hmt, Hma, Hm. left. }
      rewrite Hnil in Hin. by apply not_elem_of_nil in Hin.
    + intros Hnil. apply elem_of_nil_inv.
      intros r [[Ht _] Hr]%elem_of_getLatestResultPerAgent_filter.
      assert (r ∈ getTaskResults taskId d) as Hin by (by apply Hall).
      rewrite Hnil in Hin. by apply not_elem_of_nil in Hin.
  - intros r [[Ht _] Hr]%elem_of_getLatestResultPerAgent_filter.
    by apply Hall.
Qed.

(** ** [updateTaskStatus] and [deleteTask] on their own *)

Lemma getTask_set_status_other id other st now d :
  other ≠ id → getTask other (set_status id st now d) = getTask other d.
Proof.
  intros Hne. unfold getTask, set_status, set_tasks. simpl. f_equal.
  induction (tasks d) as [|r l IH]; [done|].
  rewrite fmap_cons, !filter_cons, IH.
  destruct (decide (TaskRow.id r = id)) as [E|E]; [|done].
  simpl. rewrite E. by rewrite !decide_False by done.
Qed.

Lemma set_status_absent id st now d :
  getTask id d = None → set_status id st now d = d.
Proof.
  intros Hnone%getTask_None. unfold set_status, set_tasks.
  destruct d as [ts as_ cs rs]. simpl in *. f_equal.
  induction ts as [|r l IH]; [done|]. rewrite fmap_cons.
  rewrite decide_False by (intros E; apply Hnone; rewrite <- E; left).
  f_equal. apply IH. intros Hin. apply Hnone. by right.
Qed.

(** X13: [updateTaskStatus] returns whether a task has the id. When none
    has, the four tables are left as they are; when one has, that task reads
    back with the new status and the time of the call as [updated_at], its
    other columns unchanged. Every other task, and all assignments, comments
    and results, are untouched either way. *)
Theorem updateTaskStatus_reports_hit (w : World) (id st : string) :
  let w' := snd (updateTaskStatus id st w) in
  fst (updateTaskStatus id st w)
  = Returned (bool_decide (is_Some (getTask id (db w))))
  ∧ (getTask id (db w) = None → db w' = db w)
  ∧ getTask id (db w')
    = with_status st (clock_at (clock_reads w)) <$> getTask id (db w)
  ∧ (∀ other, other ≠ id → getTask other (db w') = getTask other (db w))
  ∧ task_assignees (db w') = task_assignees (db w)
  ∧ task_comments (db w') = task_comments (db w)
  ∧ task_results (db w') = task_results (db w).
Proof.
  intros w'. subst w'. rewrite updateTaskStatus_run. cbn [fst snd].
  split.
  { f_equal. unfold getTask.
    by destruct (filter _ (tasks (db w))) as [|r l]. }
  split.
  { intros Hnone. cbn [db did_updateTaskStatus commit].
    by apply set_status_absent. }
  split; [apply getTask_did_updateTaskStatus|].
  split; [|by repeat split].
  intros other Hne. by apply getTask_set_status_other.
Qed.

Lemma filter_filter_other {A} (f : A → string) (id other : string)
    (l : list A) :
  other ≠ id →
  filter (λ r, f r = other) (filter (λ r, f r ≠ id) l)
  = filter (λ r, f r = other) l.
Proof.
  intros Hne. induction l as [|r l IH]; [done|].
  rewrite !filter_cons.
  destruct (decide (f r ≠ id)) as [E|E].
  - rewrite filter_cons. by rewrite IH.
  - apply dec_stable in E. rewrite IH.
    by rewrite decide_False by congruence.
Qed.

(** X14: [DELETE /tasks/:id] touches nothing of the other tasks: every
    other task reads back as before, with the same assignees, comments and
    results; no push is attempted. *)
Theorem delete_leaves_other_tasks (w : World) (id other : string) :
  other ≠ id →
  let w' := snd (delete_tasks_id id w) in
  getTask other (db w') = getTask other (db w)
  ∧ getTaskAssignees other (db w') = getTaskAssignees other (db w)
  ∧ getTaskComments other (db w') = getTaskComments other (db w)
  ∧ getTaskResults other (db w') = getTaskResults other (db w)
  ∧ outbox w' = outbox w.
Proof.
  intros Hne w'. subst w'. rewrite delete_tasks_id_run. cbn [snd db outbox].
  unfold getTask, getTaskAssignees, getTaskComments, getTaskResults,
    without_task.
  cbn [tasks task_assignees task_comments task_results].
  by rewrite !filter_filter_other.
Qed.

(** ** What the operations never change *)

Lemma getTask_app_found id d row (t : TaskRow.t) :
  getTask id d = Some t →
  head (filter (λ r, TaskRow.id r = id) (tasks d ++ [row])) = Some t.
Proof.
  unfold getTask. intros Ht. rewrite filter_app.
  by destruct (filter _ (tasks d)).
Qed.

Lemma exec_settled taskId t assignees s d d' n :
  settled taskId t assignees d → ¬ touches taskId s →
  exec s d = Some (d', n) → settled taskId t assignees d'.
Proof.
  intros [(t' & Ht' & Hsame) Hassignees] Htouch Hexec.
  destruct s; simpl in Hexec, Htouch; repeat case_decide; simplify_eq.
  - split; [|done]. exists t'. split; [|done]. by apply getTask_app_found.
  - split; [by exists t'|]. unfold getTaskAssignees. simpl.
    rewrite filter_app, filter_cons, decide_False by done.
    by rewrite filter_nil, app_nil_r.
  - split; [by exists t'|done].
  - split; [by exists t'|done].
  - split; [|done]. destruct (decide (id = taskId)) as [->|Hne].
    + exists (with_status new_status now t'). split.
      * by rewrite getTask_update, Ht'.
      * destruct Hsame as (?&?&?&?). by repeat split.
    + exists t'. split; [|done]. by rewrite getTask_set_status_other.
  - split; [by exists t'|]. unfold getTaskAssignees. simpl.
    by rewrite filter_filter_other by congruence.
  - split; [by exists t'|done].
  - split; [by exists t'|done].
  - split; [|done]. exists t'. split; [|done]. unfold getTask. simpl.
    by rewrite filter_filter_other by congruence.
Qed.

Ltac keeps_settled taskId t assignees :=
  repeat first
    [ apply keeps_ret
    | apply keeps_query
    | apply (keeps_randomUUID (settled taskId t assignees))
    | apply (keeps_Date_now (settled taskId t assignees))
    | apply (keeps_pushToAgent (settled taskId t assignees))
    | apply keeps_for_of; intros ?
    | apply (keeps_db_run (settled taskId t assignees));
      intros ? ? ? ?; apply exec_settled; [assumption|];
      simpl; first [tauto | congruence]
    | match goal with
      | |- keeps _ (if ?b then _ else _) => destruct b
      | |- keeps _ (match ?x with _ => _ end) => destruct x
      | |- keeps _ (bind _ _) => apply keeps_bind; [|intros ?]
      end ].

Lemma keeps_settled_createTask taskId t assignees title description
    assigneeIds :
  keeps (λ w, settled taskId t assignees (db w))
        (createTask title description assigneeIds).
Proof.
  unfold createTask.
  apply keeps_bind;
    [apply (keeps_randomUUID (settled taskId t assignees))|intros id].
  apply keeps_bind;
    [apply (keeps_Date_now (settled taskId t assignees))|intros now].
  intros w HJ. unfold bind at 1, db_run at 1.
  destruct (exec _ (db w)) as [[d n]|] eqn:E; [|done].
  assert (id ≠ taskId) as Hne.
  { intros ->. simpl in E. case_decide; [done|].
    destruct HJ as [(t' & Ht' & _) _].
    apply getTask_Some in Ht' as [Hin <-].
    by apply (list_elem_of_fmap_2 TaskRow.id) in Hin. }
  assert (settled taskId t assignees
            (db (commit (InsertTask
                           (TaskRow.mk id title description "todo" now now))
                        d w))) as HJ'.
  { eapply exec_settled; [exact HJ| |exact E]. simpl. tauto. }
  revert HJ'.
  generalize (commit (InsertTask
                        (TaskRow.mk id title description "todo" now now))
                     d w).
  change (keeps (λ w, settled taskId t assignees (db w))
            (for_of assigneeIds (λ agentId,
               db_run (InsertAssignee (TaskAssigneeRow.mk id agentId)) ;;;
               ret tt) ;;;
             ret (TaskRow.mk id title description "todo" now now))).
  keeps_settled taskId t assignees.
Qed.

Lemma run_op_settled o taskId t assignees w :
  o ≠ op_delete_tasks_id taskId →
  settled taskId t assignees (db w) →
  settled taskId t assignees (db (run_op o w)).
Proof.
  intros Ho. revert w.
  destruct o as [|body|id|id body|id body|id|store c]; cbn [run_op];
    match goal with
    | |- ∀ w, _ → settled _ _ _ (db (snd (?m w))) =>
        change (keeps (λ w, settled taskId t assignees (db w)) m)
    end.
  - unfold get_tasks. keeps_settled taskId t assignees.
  - unfold post_tasks, notifyAssignees, push_all.
    destruct body as [[[title|] description [assigneeIds|]]|];
      cbn [body_title body_assigneeIds body_description];
      try apply keeps_ret.
    destruct (_ || _); [apply keeps_ret|].
    apply keeps_bind; [apply keeps_settled_createTask|intros task].
    keeps_settled taskId t assignees.
  - unfold get_tasks_id. keeps_settled taskId t assignees.
  - unfold patch_tasks_id_status, updateTaskStatus, addComment,
      notifyRejection, push_all. keeps_settled taskId t assignees.
  - unfold post_tasks_id_comments, addComment.
    keeps_settled taskId t assignees.
  - assert (id ≠ taskId) as Hne by congruence.
    unfold delete_tasks_id, deleteTask. keeps_settled taskId t assignees.
  - destruct c as [|task_id|task_id status|task_id content filePath];
      unfold call_tool, list_my_tasks, get_task, update_task_status,
        post_task_result, updateTaskStatus, addComment, addTaskResult;
      try destruct status; keeps_settled taskId t assignees.
Qed.

(** X15: no operation other than the deletion of the task itself removes a
    stored task, changes its id, title, description or creation time, or
    changes who is assigned to it: whether the operation answers or throws,
    the task is still read back under its id with those columns and the same
    assignees, in the same order. *)
Theorem task_identity_and_assignees_are_fixed
    (o : Op) (w : World) (taskId : string) (t : TaskRow.t) :
  getTask taskId (db w) = Some t →
  o ≠ op_delete_tasks_id taskId →
  ∃ t', getTask taskId (db (run_op o w)) = Some t'
        ∧ TaskRow.id t' = TaskRow.id t
        ∧ TaskRow.title t' = TaskRow.title t
        ∧ TaskRow.description t' = TaskRow.description t
        ∧ TaskRow.created_at t' = TaskRow.created_at t
        ∧ getTaskAssignees taskId (db (run_op o w))
          = getTaskAssignees taskId (db w).
Proof.
  intros Ht Ho.
  assert (settled taskId t (getTaskAssignees taskId (db w)) (db w)) as HJ.
  { split; [|done]. exists t. split; [done|]. by repeat split. }
  apply (run_op_settled o) in HJ as [(t' & Ht' & (?&?&?&?)) Hassignees];
    [|done].
  by exists t'.
Qed.

Lemma exec_extends comments results s d d' n :
  extends comments results d → ¬ removes_history s →
  exec s d = Some (d', n) → extends comments results d'.
Proof.
  intros [[kc Hc] [kr Hr]] Hs Hexec.
  destruct s; simpl in Hexec, Hs; repeat case_decide; simplify_eq;
    try (by split; [exists kc|exists kr]); try done.
  - split; [|by exists kr]. exists (kc ++ [r]). simpl.
    by rewrite Hc, <- app_assoc.
  - split; [by exists kc|]. exists (kr ++ [r]). simpl.
    by rewrite Hr, <- app_assoc.
Qed.

Ltac keeps_extends comments results :=
  repeat first
    [ apply keeps_ret
    | apply keeps_query
    | apply (keeps_randomUUID (extends comments results))
    | apply (keeps_Date_now (extends comments results))
    | apply (keeps_pushToAgent (extends comments results))
    | apply keeps_for_of; intros ?
    | apply (keeps_db_run (extends comments results));
      intros ? ? ? ?; apply exec_extends; [assumption|]; simpl; tauto
    | match goal with
      | |- keeps _ (if ?b then _ else _) => destruct b
      | |- keeps _ (match ?x with _ => _ end) => destruct x
      | |- keeps _ (bind _ _) => apply keeps_bind; [|intros ?]
      end ].

Lemma run_op_extends o comments results w :
  (∀ id, o ≠ op_delete_tasks_id id) →
  extends comments results (db w) →
  extends comments results (db (run_op o w)).
Proof.
  intros Ho. revert w.
  destruct o as [|body|id|id body|id body|id|store c]; cbn [run_op];
    match goal with
    | |- ∀ w, _ → extends _ _ (db (snd (?m w))) =>
        change (keeps (λ w, extends comments results (db w)) m)
    end.
  - unfold get_tasks. keeps_extends comments results.
  - unfold post_tasks, createTask, notifyAssignees, push_all.
    keeps_extends comments results.
  - unfold get_tasks_id. keeps_extends comments results.
  - unfold patch_tasks_id_status, updateTaskStatus, addComment,
      notifyRejection, push_all. keeps_extends comments results.
  - unfold post_tasks_id_comments, addComment.
    keeps_extends comments results.
  - by destruct (Ho id).
  - destruct c as [|task_id|task_id status|task_id content filePath];
      unfold call_tool, list_my_tasks, get_task, update_task_status,
        post_task_result, updateTaskStatus, addComment, addTaskResult;
      try destruct status; keeps_extends comments results.
Qed.

(** X16: comments and results are append-only. No operation other than
    [DELETE /tasks/:id] removes, rewrites or reorders a stored comment or
    result: whether it answers or throws, the old tables are prefixes of the
    new ones. *)
Theorem history_is_append_only (o : Op) (w : World) :
  (∀ id, o ≠ op_delete_tasks_id id) →
  task_comments (db w) `prefix_of` task_comments (db (run_op o w))
  ∧ task_results (db w) `prefix_of` task_results (db (run_op o w)).
Proof.
  intros Ho.
  apply (run_op_extends o (task_comments (db w)) (task_results (db w)) w Ho).
  by split.
Qed.

(** X17: in every state the operations can reach the store is consistent:
    task ids, assignment pairs, comment ids and result ids are unique, every
    status is one of the four, and every assignment, comment and result
    belongs to a stored task. *)
Theorem reachable_store_is_consistent (w : World) :
  reachable w → consistent (db w).
Proof. apply reachable_consistent. Qed.

(** ** Sessions *)

(** X18: a [DELETE] on [/mcp] that carries a non-empty session token is
    answered 204 whether or not the token is known; it removes that token
    from the session table and nothing else: every other session stays bound
    to its identity and the store is untouched. *)
Theorem DELETE_removes_only_its_session
    (sv : Server) (req : Request) (token other : string) :
  pathname req = "/mcp" →
  method req = "DELETE" →
  header_mcp_session_id req = Some token →
  token ≠ EmptyString →
  other ≠ token →
  fst (fetch req sv) = http_204
  ∧ world (snd (fetch req sv)) = world sv
  ∧ sessions (snd (fetch req sv)) !! token = None
  ∧ sessions (snd (fetch req sv)) !! other = sessions sv !! other.
Proof.
  intros Hpath Hmethod Hheader Htoken Hother.
  rewrite (fetch_DELETE req sv token) by done. cbn [fst snd world sessions].
  split; [done|]. split; [done|].
  split; [apply lookup_delete_eq|by apply lookup_delete_ne].
Qed.

(** X19: with the transport as modelled from the specification, a session
    opened on [/mcp] is bound to the [agent_id] of the opening request (or
    ['unknown']), and a later tool call that carries the session token runs
    under that identity, whatever [agent_id] its own URL carries; the
    session table is left as it is. *)
Theorem session_keeps_its_identity
    (sv : Server) (opening call : Request) (c : ToolCall) :
  let sid := uuid_at (uuid_draws (world sv)) in
  let sv' := snd (fetch opening sv) in
  pathname opening = "/mcp" →
  header_mcp_session_id opening = None →
  pathname call = "/mcp" →
  method call ≠ "DELETE" →
  header_mcp_session_id call = Some sid →
  sid ≠ EmptyString →
  message call = rpc_tools_call c →
  fst (fetch opening sv) = from_transport (session_opened sid)
  ∧ agentId <$> sessions sv' !! sid = Some (agentIdFromUrl opening)
  ∧ world (snd (fetch call sv'))
    = snd (call_tool (Some (agentIdFromUrl opening)) c (world sv'))
  ∧ sessions (snd (fetch call sv')) = sessions sv'
  ∧ fst (fetch call sv')
    = from_transport
        match fst (call_tool (Some (agentIdFromUrl opening)) c (world sv')) with
        | Returned r => tool_reply r
        | Threw e => tool_threw e
        end.
Proof.
  intros sid sv' Hpath Hheader Hpath' Hmethod Hheader' Hsid Hmessage.
  subst sv'. rewrite (fetch_opens_session opening sv) by done.
  cbn [fst snd]. fold sid.
  assert (sessions (register_session (agentIdFromUrl opening) sid
                      (mkServer (tick_uuid (world sv)) (sessions sv))) !! sid
          = Some (mkSession (mkTransport (Some sid)) (agentIdFromUrl opening)))
    as Hsession by (unfold register_session; cbn [sessions];
                    by rewrite lookup_insert_eq).
  split; [done|]. split; [by rewrite Hsession|].
  rewrite (fetch_known_session call _ sid (agentIdFromUrl opening)) by done.
  rewrite Hmessage.
  by destruct (call_tool _ c _) as [[r|e] w'].
Qed.

(** ** Every task keeps an assignee *)







(** ** Empty optional texts *)

Lemma contains_append_l (x s t : string) :
  contains x s → contains x (s +:+ t).
Proof.
  intros (before & after & ->). exists before, (after +:+ t).
  by rewrite !append_assoc.
Qed.

(** X21: [post_task_result] by an assignee stores the file path it is given,
    also the empty string, but its comment names the file only when the path
    is not empty: for an empty path the comment is the one written without a
    path, and for any other path the comment contains it. The comment is
    signed with the name the agent directory gives, or with the agent id when
    the directory gives none. *)
Theorem post_task_result_comment_names_file
    (w : World) (store : option string) (taskId content : string)
    (filePath : option string) :
  is_Some (getTask taskId (db w)) →
  getCallerAgentId store ∈ getTaskAssignees taskId (db w) →
  uuid_at (uuid_draws w) ∉ TaskResultRow.id <$> task_results (db w) →
  uuid_at (S (uuid_draws w)) ∉ TaskCommentRow.id <$> task_comments (db w) →
  let agentId := getCallerAgentId store in
  let w' := snd (post_task_result store taskId content filePath w) in
  ∃ result comment,
    task_results (db w') = task_results (db w) ++ [result]
    ∧ task_comments (db w') = task_comments (db w) ++ [comment]
    ∧ TaskResultRow.file_path result = filePath
    ∧ TaskCommentRow.author_name comment
      = default agentId (agent_directory agentId)
    ∧ (truthy filePath = false →
         TaskCommentRow.content comment
         = "[System] " +:+ TaskCommentRow.author_name comment
           +:+ " submitted a result. Task is now in review.")
    ∧ (∀ path, filePath = Some path → path ≠ EmptyString →
         contains path (TaskCommentRow.content comment)).
Proof.
  intros Htask Hin Hfresh1 Hfresh2 agentId w'. subst w'.
  rewrite post_task_result_run by done. cbn [snd]. fold agentId.
  exists (new_result taskId agentId content filePath w),
    (new_comment taskId agentId "agent" (getAgentName agentId)
       (result_comment (getAgentName agentId) filePath)
       (did_updateTaskStatus taskId "review"
          (did_addTaskResult taskId agentId content filePath w))).
  split; [done|]. split; [done|]. split; [done|]. split; [done|].
  cbn [TaskCommentRow.content TaskCommentRow.author_name new_comment].
  unfold result_comment. split.
  - by intros ->.
  - intros path -> Hpath%truthy_Some. rewrite Hpath. cbn [from_option id].
    do 3 apply contains_append_r. apply contains_append_l.
    apply contains_append_r, contains_here.
Qed.

End Embedding.

(** * The review decision does not depend on the pushes *)

Section Rejection.

Variable uuid_at : nat → string.
Variable clock_at : nat → Z.

(** C6: for an existing task and a feedback text that is not empty, a
    [reject] decision is answered 200 with the updated task; the task is
    then [in_progress]; the comments are the old ones followed by exactly
    one new comment of that task, whose text contains the feedback; one
    push that carries the feedback is attempted for each assignee of the
    task, in the order of the assignment rows. Whether the pushes fail
    changes neither the answer nor the database, the journal or the
    outbox. The identifier drawn for the comment is assumed not to be in
    use. *)
Theorem reject_with_feedback
    (push_fails push_fails' : string → string → bool)
    (w : World) (taskId feedback : string) (task : TaskRow.t) :
  getTask taskId (db w) = Some task →
  feedback ≠ EmptyString →
  uuid_at (uuid_draws w) ∉ TaskCommentRow.id <$> task_comments (db w) →
  let body := Some (mkStatusBody (Some "reject") (Some feedback)) in
  let message := rejection_message taskId (TaskRow.title task) feedback in
  ∃ (comment : TaskCommentRow.t) (w' : World),
    patch_tasks_id_status uuid_at clock_at push_fails taskId body w
    = (Returned (json (JDetail (buildTaskDetail taskId (db w'))) 200), w')
    ∧ TaskRow.status <$> getTask taskId (db w') = Some "in_progress"
    ∧ task_comments (db w') = task_comments (db w) ++ [comment]
    ∧ TaskCommentRow.task_id comment = taskId
    ∧ contains feedback (TaskCommentRow.content comment)
    ∧ task_assignees (db w') = task_assignees (db w)
    ∧ outbox w'
      = outbox w
        ++ ((λ id, mkPush id message) <$> getTaskAssignees taskId (db w'))
    ∧ contains feedback message
    ∧ fst (patch_tasks_id_status uuid_at clock_at push_fails' taskId body w)
      = Returned (json (JDetail (buildTaskDetail taskId (db w'))) 200)
    ∧ db (snd (patch_tasks_id_status uuid_at clock_at push_fails'
                                     taskId body w)) = db w'
    ∧ journal (snd (patch_tasks_id_status uuid_at clock_at push_fails'
                                          taskId body w)) = journal w'
    ∧ outbox (snd (patch_tasks_id_status uuid_at clock_at push_fails'
                                         taskId body w)) = outbox w'.
Proof.
  intros Htask Hfeedback Hfresh body message.
  exists (new_comment uuid_at clock_at taskId "human" "human" "Human"
            ("[Feedback] " +:+ feedback)
            (did_updateTaskStatus clock_at taskId "in_progress" w)),
    (did_reject uuid_at clock_at push_fails taskId (TaskRow.title task)
                feedback w).
  subst body.
  rewrite !(patch_reject_run _ _ _ w taskId task feedback) by done.
  split; [done|]. split.
  { change (getTask taskId (db (did_reject _ _ _ _ _ _ w)))
      with (getTask taskId
              (db (did_updateTaskStatus clock_at taskId "in_progress" w))).
    rewrite getTask_did_updateTaskStatus. by rewrite Htask. }
  split; [done|]. split; [done|].
  split; [apply contains_append_r, contains_refl|].
  split; [done|]. split; [done|].
  split; [apply contains_rejection_message|].
  by repeat split.
Qed.

End Rejection.

(** * Task creation does not depend on the pushes *)

Section Creation.

Variable uuid_at : nat → string.
Variable clock_at : nat → Z.


End Creation.

(** * The theorems at work on the small board *)

Lemma board_reachable :
  reachable Demo.uuid_at Demo.clock_at Demo.agent_directory Demo.push_fails
            Demo.board.
Proof.
  change Demo.board
    with (run_op Demo.uuid_at Demo.clock_at Demo.agent_directory
                 Demo.push_fails
                 (op_post_tasks
                    (Some (mkCreateBody (Some "Write the report") None
                                        (Some ["agent-a"; "agent-b"]))))
                 init_world).
  apply reachable_step, reachable_init.
Qed.

Lemma uuid_at_fresh (k : nat) : (1 ≤ k)%nat → Demo.uuid_at k ≠ "id".
Proof. destruct k as [|k]; [lia|]. intros _. by unfold Demo.uuid_at. Qed.

(** A closed decidable statement, settled by evaluation. *)
Ltac evaluate :=
  match goal with
  | |- ?P => apply (@bool_decide_unpack P _); vm_compute; exact I
  end.

(** [agent-a] hands in a result on the board. *)
Lemma post_task_result_by_assignee_witness :
  is_Some (getTask "id" (db Demo.board))
  ∧ "agent-a" ∈ getTaskAssignees "id" (db Demo.board)
  ∧ ∃ result comment w',
      post_task_result Demo.uuid_at Demo.clock_at Demo.agent_directory
        (Some "agent-a") "id" "see the file" None Demo.board
      = (Returned (tool_ok (TResult (TaskResultRow.id result) "id" "review")),
         w')
      ∧ TaskRow.status <$> getTask "id" (db w') = Some "review"
      ∧ task_results (db w') = task_results (db Demo.board) ++ [result]
      ∧ task_comments (db w') = task_comments (db Demo.board) ++ [comment].
Proof.
  assert (is_Some (getTask "id" (db Demo.board))) as Htask by evaluate.
  assert ("agent-a" ∈ getTaskAssignees "id" (db Demo.board)) as Hin
    by evaluate.
  split; [exact Htask|]. split; [exact Hin|].
  destruct (post_task_result_by_assignee
              Demo.uuid_at Demo.clock_at Demo.agent_directory Demo.board
              (Some "agent-a") "id" "see the file" None Htask Hin
              ltac:(evaluate) ltac:(evaluate))
    as (result & comment & w' & Hrun & Hstatus & Hresults & _ & _ & _ & _
        & Hcomments & _).
  exists result, comment, w'. by repeat split.
Defined.

(** The history R1 (agent-a, 10), R2 (agent-a, 30), R3 (agent-b, 20). *)
Lemma latest_result_per_agent_witness :
  NoDup (TaskResultRow.id <$> task_results Demo.history)
  ∧ getLatestResultPerAgent "id" Demo.history = [Demo.R3; Demo.R2].
Proof.
  assert (NoDup (TaskResultRow.id <$> task_results Demo.history)) as Hpk
    by evaluate.
  split; [exact Hpk|].
  destruct (latest_result_per_agent Demo.history "id" Hpk)
    as (_ & _ & _ & _ & _ & Hexample).
  apply (Hexample Demo.R1 Demo.R2 Demo.R3);
    first [reflexivity | discriminate].
Defined.

(** A rejection of the task in review that carries no feedback. *)
Lemma reject_without_feedback_witness :
  is_Some (getTask "id" (db Demo.in_review))
  ∧ patch_tasks_id_status Demo.uuid_at Demo.clock_at Demo.push_fails "id"
      (Some (mkStatusBody (Some "reject") None)) Demo.in_review
    = (Returned (json (JError "feedback is required when rejecting") 400),
       Demo.in_review).
Proof.
  assert (is_Some (getTask "id" (db Demo.in_review))) as Htask by evaluate.
  split; [exact Htask|].
  apply (reject_without_feedback Demo.uuid_at Demo.clock_at Demo.push_fails
           Demo.in_review "id" (mkStatusBody (Some "reject") None) Htask);
    reflexivity.
Defined.

(** [agent-c] is not assigned to the task of the board. *)
Lemma non_assignee_is_forbidden_witness :
  is_Some (getTask "id" (db Demo.board))
  ∧ ("agent-c" ∉ getTaskAssignees "id" (db Demo.board))
  ∧ update_task_status Demo.uuid_at Demo.clock_at Demo.agent_directory
      (Some "agent-c") "id" in_progress Demo.board
    = (Returned Forbidden, Demo.board)
  ∧ post_task_result Demo.uuid_at Demo.clock_at Demo.agent_directory
      (Some "agent-c") "id" "mine" None Demo.board
    = (Returned Forbidden, Demo.board).
Proof.
  assert (is_Some (getTask "id" (db Demo.board))) as Htask by evaluate.
  assert ("agent-c" ∉ getTaskAssignees "id" (db Demo.board)) as Hout
    by evaluate.
  split; [exact Htask|]. split; [exact Hout|].
  destruct (non_assignee_is_forbidden
              Demo.uuid_at Demo.clock_at Demo.agent_directory Demo.board
              (Some "agent-c") "id" Htask Hout) as [Hupdate Hpost].
  split; [apply Hupdate|apply Hpost].
Defined.

(** The board is reachable, so its statuses are among the four. *)
Lemma status_is_always_enumerated_witness : statuses_ok (db Demo.board).
Proof.
  apply (status_is_always_enumerated Demo.uuid_at Demo.clock_at
           Demo.agent_directory Demo.push_fails).
  apply board_reachable.
Defined.

(** The task in review is sent back with the feedback [Add the sources]; the
    push to [agent-b] fails under [Demo.push_fails] and none fails under
    [Demo.all_delivered]. *)
Lemma reject_with_feedback_witness :
  ∃ task comment w',
    getTask "id" (db Demo.in_review) = Some task
    ∧ patch_tasks_id_status Demo.uuid_at Demo.clock_at Demo.push_fails "id"
        (Some (mkStatusBody (Some "reject") (Some "Add the sources")))
        Demo.in_review
      = (Returned (json (JDetail (buildTaskDetail "id" (db w'))) 200), w')
    ∧ TaskRow.status <$> getTask "id" (db w') = Some "in_progress"
    ∧ task_comments (db w') = task_comments (db Demo.in_review) ++ [comment]
    ∧ push_agent <$> outbox w'
      = (push_agent <$> outbox Demo.in_review) ++ ["agent-a"; "agent-b"]
    ∧ db (snd (patch_tasks_id_status Demo.uuid_at Demo.clock_at
                 Demo.all_delivered "id"
                 (Some (mkStatusBody (Some "reject") (Some "Add the sources")))
                 Demo.in_review))
      = db w'.
Proof.
  destruct (getTask "id" (db Demo.in_review)) as [task|] eqn:Htask;
    [|vm_compute in Htask; discriminate].
  destruct (reject_with_feedback Demo.uuid_at Demo.clock_at
              Demo.push_fails Demo.all_delivered Demo.in_review "id"
              "Add the sources" task Htask ltac:(discriminate)
              ltac:(evaluate))
    as (comment & w' & Hrun & Hstatus & Hcomments & _ & _ & Hassignees
        & Houtbox & _ & _ & Hdb & _).
  exists task, comment, w'. repeat split; try done.
  rewrite Houtbox, fmap_app, <- list_fmap_compose. f_equal.
  unfold getTaskAssignees. rewrite Hassignees. reflexivity.
Defined.

(** The task of the board is deleted. *)
Lemma delete_cascades_witness :
  let w' := snd (delete_tasks_id "id" Demo.board) in
  fst (delete_tasks_id "id" Demo.board) = Returned (json JOk 200)
  ∧ db w' = empty_db
  ∧ get_task "id" w' = (Returned NotFound, w').
Proof.
  destruct (delete_cascades Demo.uuid_at Demo.clock_at Demo.agent_directory
              Demo.push_fails Demo.board "id" board_reachable)
    as (_ & Hdb & _ & _ & _ & _ & Hfound & _).
  destruct (Hfound ltac:(evaluate)) as (Hanswer & Hget & _).
  split; [exact Hanswer|]. split; [|exact Hget].
  rewrite Hdb. reflexivity.
Defined.

(** A session is opened, closed, and its token used again. *)
Lemma terminated_session_is_retired_witness :
  let sv := snd (fetch Demo.uuid_at Demo.clock_at Demo.agent_directory
                       Demo.open init_server) in
  let sv1 := snd (fetch Demo.uuid_at Demo.clock_at Demo.agent_directory
                        (Demo.close "id") sv) in
  is_Some (sessions sv !! "id")
  ∧ sessions sv1 !! "id" = None
  ∧ fetch Demo.uuid_at Demo.clock_at Demo.agent_directory
      (Demo.call "id" call_list_my_tasks)
      (serve Demo.uuid_at Demo.clock_at Demo.agent_directory [Demo.open] sv1)
    = (from_transport invalid_session,
       serve Demo.uuid_at Demo.clock_at Demo.agent_directory [Demo.open] sv1).
Proof.
  intros sv sv1.
  destruct (terminated_session_is_retired
              Demo.uuid_at Demo.clock_at Demo.agent_directory
              sv "id" (Demo.close "id") [Demo.open]
              (Demo.call "id" call_list_my_tasks)
              eq_refl eq_refl eq_refl ltac:(discriminate)
              uuid_at_fresh eq_refl)
    as (_ & Hgone & _ & _ & Hlater).
  split; [evaluate|]. split; [exact Hgone|exact Hlater].
Defined.

(** A second [DELETE] with the token of a closed session is answered 204: it
    is not rejected as an invalid session. *)
Lemma repeated_DELETE_is_not_rejected :
  let sv := snd (fetch Demo.uuid_at Demo.clock_at Demo.agent_directory
                       Demo.open init_server) in
  let sv1 := snd (fetch Demo.uuid_at Demo.clock_at Demo.agent_directory
                        (Demo.close "id") sv) in
  fst (fetch Demo.uuid_at Demo.clock_at Demo.agent_directory Demo.open
             init_server)
  = from_transport (session_opened "id")
  ∧ fst (fetch Demo.uuid_at Demo.clock_at Demo.agent_directory
               (Demo.close "id") sv) = http_204
  ∧ sessions sv1 !! "id" = None
  ∧ header_mcp_session_id (Demo.close "id") = Some "id"
  ∧ fst (fetch Demo.uuid_at Demo.clock_at Demo.agent_directory
               (Demo.close "id") sv1) = http_204
  ∧ fst (fetch Demo.uuid_at Demo.clock_at Demo.agent_directory
               (Demo.close "id") sv1) ≠ from_transport invalid_session.
Proof.
  intros sv sv1.
  repeat split; first [reflexivity | by vm_compute | discriminate].
Qed.

(** One assignee named twice: the request throws and the task stays. *)
Lemma post_tasks_partial_on_duplicate_assignee_witness :
  ∃ w',
    post_tasks Demo.uuid_at Demo.clock_at Demo.push_fails
      (Some (mkCreateBody (Some "Twice") None (Some ["agent-a"; "agent-a"])))
      init_world
    = (Threw "SQLITE_CONSTRAINT", w')
    ∧ is_Some (getTask "id" (db w'))
    ∧ getTaskAssignees "id" (db w') = ["agent-a"].
Proof.
  destruct (post_tasks_partial_on_duplicate_assignee
              Demo.uuid_at Demo.clock_at Demo.push_fails init_world
              "Twice" "agent-a" None ltac:(discriminate)
              ltac:(evaluate) ltac:(evaluate))
    as (w' & Hrun & _ & Hassignees & Htask & _).
  exists w'. split; [exact Hrun|]. split; [eexists; exact Htask|].
  unfold getTaskAssignees. rewrite Hassignees. reflexivity.
Defined.

(** A session opened without [agent_id] works on the task of ['unknown']. *)
Lemma unidentified_caller_is_unknown_witness :
  let sv := mkServer Demo.orphaned ∅ in
  let sv' := snd (fetch Demo.uuid_at Demo.clock_at Demo.agent_directory
                        Demo.open sv) in
  agentId <$> sessions sv' !! "id|" = Some "unknown"
  ∧ fst (update_task_status Demo.uuid_at Demo.clock_at Demo.agent_directory
           None "id" in_progress Demo.orphaned)
    = Returned (tool_ok (TStatus "id" "in_progress"))
  ∧ fst (post_task_result Demo.uuid_at Demo.clock_at Demo.agent_directory
           None "id" "anonymous" None Demo.orphaned)
    = Returned (tool_ok (TResult "id|" "id" "review")).
Proof.
  intros sv sv'.
  destruct (unidentified_caller_is_unknown
              Demo.uuid_at Demo.clock_at Demo.agent_directory
              Demo.orphaned "id" "anonymous" None in_progress
              Demo.open (Demo.call "id|" call_list_my_tasks)
              call_list_my_tasks sv
              ltac:(evaluate) ltac:(evaluate) ltac:(evaluate) ltac:(evaluate)
              ltac:(evaluate) eq_refl eq_refl eq_refl eq_refl
              ltac:(discriminate) eq_refl ltac:(discriminate) eq_refl)
    as (_ & _ & _ & _ & Hsession & _ & Hupdate & _ & Hpost & _).
  split; [exact Hsession|]. split; [by rewrite Hupdate|by rewrite Hpost].
Defined.

(** * The further properties at work on the small board *)

(** The task in review is approved. *)
Lemma approve_marks_done_witness :
  TaskRow.status
    <$> getTask "id"
          (db (snd (patch_tasks_id_status Demo.uuid_at Demo.clock_at
                      Demo.push_fails "id"
                      (Some (mkStatusBody (Some "approve") None))
                      Demo.in_review)))
  = Some "done".
Proof.
  destruct (approve_marks_done Demo.uuid_at Demo.clock_at Demo.push_fails
              Demo.in_review "id" None ltac:(evaluate) ltac:(evaluate))
    as (comment & w' & Hrun & Hstatus & _).
  rewrite Hrun. exact Hstatus.
Defined.

(** A decision on a task that does not exist, and an unknown action. *)
Lemma patch_status_refusals_witness :
  patch_tasks_id_status Demo.uuid_at Demo.clock_at Demo.push_fails "nope" None
                        Demo.board
  = (Returned (json (JError "Task not found") 404), Demo.board)
  ∧ status_code
      <$> (match fst (patch_tasks_id_status Demo.uuid_at Demo.clock_at
                        Demo.push_fails "id"
                        (Some (mkStatusBody (Some "archive") None))
                        Demo.board) with
           | Returned r => Some r
           | Threw _ => None
           end)
    = Some 400%nat.
Proof.
  destruct (patch_status_refusals Demo.uuid_at Demo.clock_at Demo.push_fails
              Demo.board "nope") as (Hmissing & _).
  destruct (patch_status_refusals Demo.uuid_at Demo.clock_at Demo.push_fails
              Demo.board "id") as (_ & _ & Haction).
  split.
  - apply Hmissing. reflexivity.
  - rewrite (Haction ltac:(evaluate) (mkStatusBody (Some "archive") None)
               ltac:(discriminate) ltac:(discriminate)).
    reflexivity.
Defined.

(** The human comments on the task of the board. *)
Lemma post_comment_appends_witness :
  TaskCommentRow.content
    <$> task_comments
          (db (snd (post_tasks_id_comments Demo.uuid_at Demo.clock_at "id"
                      (Some (Some "Please hurry")) Demo.board)))
  = ["Please hurry"].
Proof.
  destruct (post_comment_appends Demo.uuid_at Demo.clock_at Demo.board "id"
              "Please hurry" ltac:(evaluate) ltac:(discriminate)
              ltac:(evaluate))
    as (comment & w' & Hrun & _ & _ & _ & _ & Hcontent & Hcomments & _).
  rewrite Hrun. cbn [snd]. rewrite Hcomments, fmap_app. simpl.
  by rewrite Hcontent.
Defined.

(** An empty comment on the task of the board. *)
Lemma post_comment_refusals_witness :
  post_tasks_id_comments Demo.uuid_at Demo.clock_at "id"
                         (Some (Some EmptyString)) Demo.board
  = (Returned (json (JError "content is required") 400), Demo.board).
Proof.
  destruct (post_comment_refusals Demo.uuid_at Demo.clock_at Demo.board "id")
    as (_ & _ & Hempty).
  apply Hempty; [evaluate|reflexivity].
Defined.

(** [agent-a] asks for a task that does not exist. *)
Lemma tools_on_missing_task_witness :
  get_task "nope" Demo.board = (Returned NotFound, Demo.board)
  ∧ update_task_status Demo.uuid_at Demo.clock_at Demo.agent_directory
      (Some "agent-a") "nope" review Demo.board
    = (Returned NotFound, Demo.board).
Proof.
  destruct (tools_on_missing_task Demo.uuid_at Demo.clock_at
              Demo.agent_directory Demo.board (Some "agent-a") "nope"
              eq_refl) as (Hget & Hupdate & _).
  split; [exact Hget|apply Hupdate].
Defined.

(** [agent-a] takes the task in review back to [in_progress]. *)
Lemma update_task_status_by_assignee_witness :
  TaskRow.status
    <$> getTask "id"
          (db (snd (update_task_status Demo.uuid_at Demo.clock_at
                      Demo.agent_directory (Some "agent-a") "id" in_progress
                      Demo.in_review)))
  = Some "in_progress".
Proof.
  destruct (update_task_status_by_assignee Demo.uuid_at Demo.clock_at
              Demo.agent_directory Demo.in_review (Some "agent-a") "id"
              in_progress ltac:(evaluate) ltac:(evaluate) ltac:(evaluate))
    as (comment & w' & Hrun & Hstatus & _).
  rewrite Hrun. exact Hstatus.
Defined.

(** A task without assignees is refused. *)
Lemma post_tasks_refusals_witness :
  post_tasks Demo.uuid_at Demo.clock_at Demo.push_fails
    (Some (mkCreateBody (Some "Alone") None (Some []))) Demo.board
  = (Returned
       (json (JError "title and at least one assigneeId are required") 400),
     Demo.board).
Proof.
  destruct (post_tasks_refusals Demo.uuid_at Demo.clock_at Demo.push_fails
              Demo.board) as (_ & Hrefused).
  apply Hrefused. right. right. reflexivity.
Defined.


(** The results of the history, oldest first. *)
Lemma task_history_is_ordered_witness :
  Sorted (not_after TaskResultRow.created_at)
         (getTaskResults "id" Demo.history)
  ∧ getTaskResults "id" Demo.history = [Demo.R1; Demo.R3; Demo.R2].
Proof.
  split; [apply (task_history_is_ordered Demo.history "id")|reflexivity].
Defined.

(** The task list of the state in review. *)
Lemma task_list_shows_newest_result_witness :
  ∃ e, buildTaskList (db Demo.in_review) = [e]
       ∧ entry_assignees e = ["agent-a"; "agent-b"]
       ∧ TaskResultRow.content <$> entry_lastResult e = Some "see the file".
Proof.
  destruct (buildTaskList (db Demo.in_review)) as [|e rest] eqn:Hlist;
    [vm_compute in Hlist; discriminate|].
  destruct (task_list_shows_newest_result (db Demo.in_review) e)
    as (_ & Hassignees & _).
  { rewrite Hlist. left. }
  exists e. vm_compute in Hlist. by simplify_eq.
Defined.

(** The tasks of [agent-b] on the board. *)
Lemma list_my_tasks_lists_assigned_witness :
  list_my_tasks (Some "agent-b") Demo.board
  = (Returned (tool_ok (TTasks [Demo.report])), Demo.board).
Proof.
  destruct (list_my_tasks_lists_assigned Demo.board (Some "agent-b"))
    as (Hrun & _).
  { apply (reachable_consistent Demo.uuid_at Demo.clock_at
             Demo.agent_directory Demo.push_fails), board_reachable. }
  rewrite Hrun. reflexivity.
Defined.

(** A task without results has no latest results either. *)
Lemma latest_results_cover_history_witness :
  getLatestResultPerAgent "other" Demo.history = [].
Proof.
  apply (latest_results_cover_history Demo.history "other"). reflexivity.
Defined.

(** An update of a task that does not exist. *)
Lemma updateTaskStatus_reports_hit_witness :
  fst (updateTaskStatus Demo.clock_at "nope" "done" Demo.board)
  = Returned false
  ∧ db (snd (updateTaskStatus Demo.clock_at "nope" "done" Demo.board))
    = db Demo.board.
Proof.
  destruct (updateTaskStatus_reports_hit Demo.clock_at Demo.board "nope" "done")
    as (Hanswer & Hdb & _).
  split; [exact Hanswer|]. apply Hdb. reflexivity.
Defined.

(** Deleting another id leaves the task of the board. *)
Lemma delete_leaves_other_tasks_witness :
  getTask "id" (db (snd (delete_tasks_id "id|" Demo.board)))
  = Some Demo.report.
Proof.
  destruct (delete_leaves_other_tasks Demo.board "id|" "id"
              ltac:(discriminate)) as (Htask & _).
  rewrite Htask. reflexivity.
Defined.

(** An approval keeps the title and the assignees of the task. *)
Lemma task_identity_and_assignees_are_fixed_witness :
  let w' := run_op Demo.uuid_at Demo.clock_at Demo.agent_directory
                   Demo.push_fails
                   (op_patch_tasks_id_status
                      "id" (Some (mkStatusBody (Some "approve") None)))
                   Demo.in_review in
  TaskRow.title <$> getTask "id" (db w') = Some "Write the report"
  ∧ getTaskAssignees "id" (db w') = ["agent-a"; "agent-b"].
Proof.
  intros w'.
  destruct (task_identity_and_assignees_are_fixed
              Demo.uuid_at Demo.clock_at Demo.agent_directory Demo.push_fails
              (op_patch_tasks_id_status
                 "id" (Some (mkStatusBody (Some "approve") None)))
              Demo.in_review "id"
              (with_status "review" 1700000000002 Demo.report)
              eq_refl ltac:(discriminate))
    as (t' & Ht' & _ & Htitle & _ & _ & Hassignees).
  subst w'. rewrite Ht', Hassignees.
  split; [simpl; f_equal; exact Htitle|reflexivity].
Defined.

(** A rejection keeps the comment and the result of the state in review. *)
Lemma history_is_append_only_witness :
  task_results (db Demo.in_review)
  `prefix_of`
  task_results
    (db (run_op Demo.uuid_at Demo.clock_at Demo.agent_directory
                Demo.push_fails
                (op_patch_tasks_id_status
                   "id" (Some (mkStatusBody (Some "reject") (Some "More"))))
                Demo.in_review)).
Proof.
  apply (history_is_append_only Demo.uuid_at Demo.clock_at
           Demo.agent_directory Demo.push_fails
           (op_patch_tasks_id_status
              "id" (Some (mkStatusBody (Some "reject") (Some "More"))))
           Demo.in_review).
  discriminate.
Defined.

(** The board is consistent. *)
Lemma reachable_store_is_consistent_witness : consistent (db Demo.board).
Proof.
  apply (reachable_store_is_consistent Demo.uuid_at Demo.clock_at
           Demo.agent_directory Demo.push_fails), board_reachable.
Defined.

(** Two sessions are opened and the first one is closed. *)
Lemma DELETE_removes_only_its_session_witness :
  let sv := serve Demo.uuid_at Demo.clock_at Demo.agent_directory
                  [Demo.open; Demo.open] init_server in
  let sv' := snd (fetch Demo.uuid_at Demo.clock_at Demo.agent_directory
                        (Demo.close "id") sv) in
  is_Some (sessions sv !! "id")
  ∧ sessions sv' !! "id" = None
  ∧ is_Some (sessions sv' !! "id|").
Proof.
  intros sv sv'.
  destruct (DELETE_removes_only_its_session
              Demo.uuid_at Demo.clock_at Demo.agent_directory sv
              (Demo.close "id") "id" "id|" eq_refl eq_refl eq_refl
              ltac:(discriminate) ltac:(discriminate))
    as (_ & _ & Hgone & Hother).
  split; [evaluate|]. split; [exact Hgone|].
  subst sv'. rewrite Hother. evaluate.
Defined.

(** A session opened for [agent-a] is used with another [agent_id] in the
    URL: the tool still runs for [agent-a]. *)
Lemma session_keeps_its_identity_witness :
  let opening := mkRequest "POST" "/mcp" (Some "agent-a") None rpc_initialize in
  let call := mkRequest "POST" "/mcp" (Some "agent-b") (Some "id|")
                        (rpc_tools_call call_list_my_tasks) in
  let sv := mkServer Demo.board ∅ in
  let sv' := snd (fetch Demo.uuid_at Demo.clock_at Demo.agent_directory
                        opening sv) in
  fst (fetch Demo.uuid_at Demo.clock_at Demo.agent_directory call sv')
  = from_transport
      (tool_reply
         (tool_ok (TTasks (getTasksForAgent "agent-a" (db Demo.board))))).
Proof.
  intros opening call sv sv'.
  destruct (session_keeps_its_identity
              Demo.uuid_at Demo.clock_at Demo.agent_directory sv opening call
              call_list_my_tasks eq_refl eq_refl eq_refl ltac:(discriminate)
              eq_refl ltac:(discriminate) eq_refl)
    as (_ & _ & _ & _ & Hreply).
  subst sv'. rewrite Hreply. reflexivity.
Defined.


(** [agent-a] hands in a result with an empty file path. *)
Lemma post_task_result_comment_names_file_witness :
  let w' := snd (post_task_result Demo.uuid_at Demo.clock_at
                   Demo.agent_directory (Some "agent-a") "id" "done"
                   (Some EmptyString) Demo.board) in
  ∃ result comment,
    task_results (db w') = [result]
    ∧ task_comments (db w') = [comment]
    ∧ TaskResultRow.file_path result = Some EmptyString
    ∧ TaskCommentRow.content comment
      = "[System] Ada submitted a result. Task is now in review.".
Proof.
  intros w'.
  destruct (post_task_result_comment_names_file
              Demo.uuid_at Demo.clock_at Demo.agent_directory Demo.board
              (Some "agent-a") "id" "done" (Some EmptyString)
              ltac:(evaluate) ltac:(evaluate) ltac:(evaluate)
              ltac:(evaluate))
    as (result & comment & Hresults & Hcomments & Hpath & Hname & Hempty & _).
  exists result, comment. subst w'.
  split; [exact Hresults|]. split; [exact Hcomments|].
  split; [exact Hpath|]. rewrite (Hempty eq_refl), Hname. reflexivity.
Defined.
